(** * Paper-trading core of the market-making bot: fill simulator,
      portfolio ledger and execution coordinator

    A shallow embedding of
      - [app/paper_trading/order_simulator.py]   (class [OrderSimulator]),
      - [app/paper_trading/portfolio_tracker.py] (class [PortfolioTracker]),
      - [app/paper_trading/paper_exchange.py]    (class [PaperTradingExchange]),
    followed by the properties of the specification stated over it.

    Conventions of the embedding.
      - Python [float] values are exact rationals ([Q]).  Comparisons are the
        boolean tests of [QArith]; an arithmetic result is compared with
        [==] ([Qeq]), a value that is merely passed along with [=].
        Rounding of binary64 is outside this part of the model: an identity
        below that rests on arithmetic (an average entry price, an equity
        bound) is an identity of exact arithmetic.  Where rounding decides
        what the code returns, as in the accumulators of the market-order
        walk, the code is transliterated a second time over IEEE 754
        binary64 ([Binary64]) and evaluated there.
      - A Python [dict] is an association list in insertion order.
      - A method that mutates [self] is a function on the tracker's state; a
        method that can raise does so through [outcome], and the state it
        leaves behind is the one reached when the exception was thrown.
      - An [async def] that awaits a sleep is a [task]: a computation that
        either finishes or suspends, handing the ledger back to the event
        loop until it is resumed.
      - Calls to [logger] and to the optional CSV trade logger write text to
        external sinks and never touch the ledger; they are left out. *)

From Stdlib Require Import QArith Qminmax Qabs Lqa ZArith List String Bool Lia.
From Stdlib Require PrimFloat.
Import ListNotations.

Open Scope Q_scope.

(** ** Python numerics on exact rationals *)

Definition Qlt_bool (x y : Q) : bool := negb (Qle_bool y x).

(** [min(a, b)]: the first argument unless the second is strictly smaller. *)
Definition pymin (a b : Q) : Q := if Qlt_bool b a then b else a.

(** [max(a, b)]: the first argument unless the second is strictly larger. *)
Definition pymax (a b : Q) : Q := if Qlt_bool a b then b else a.

Inductive exn : Type :=
| ZeroDivisionError.

Inductive outcome (A : Type) : Type :=
| Ok (a : A)
| Raise (e : exn).

Arguments Ok {A} a.
Arguments Raise {A} e.

(** [a / b] on floats raises on a zero divisor. *)
Definition pydiv (a b : Q) : outcome Q :=
  if Qeq_bool b 0 then Raise ZeroDivisionError else Ok (a / b).

(** ** Python dictionaries as insertion-ordered association lists *)

Section PyDict.
Context {K V : Type} (eqb : K -> K -> bool).

Fixpoint dict_get (k : K) (d : list (K * V)) : option V :=
  match d with
  | [] => None
  | (k', v) :: rest => if eqb k k' then Some v else dict_get k rest
  end.

(** [d[k] = v]: an existing key keeps its place, a new key goes last. *)
Fixpoint dict_set (k : K) (v : V) (d : list (K * V)) : list (K * V) :=
  match d with
  | [] => [(k, v)]
  | (k', v') :: rest =>
      if eqb k k' then (k', v) :: rest else (k', v') :: dict_set k v rest
  end.

(** [del d[k]] for a key that may be absent. *)
Fixpoint dict_del (k : K) (d : list (K * V)) : list (K * V) :=
  match d with
  | [] => []
  | (k', v') :: rest =>
      if eqb k k' then dict_del k rest else (k', v') :: dict_del k rest
  end.

(** [d.pop(k, None)] *)
Definition dict_pop (k : K) (d : list (K * V)) : option V * list (K * V) :=
  (dict_get k d, dict_del k d).

Definition dict_values (d : list (K * V)) : list V := map snd d.

End PyDict.

(** ** Data model *)

Definition timestamp : Type := Z.

(** Modelled from the spec: [app.models.generic_order_side.GenericOrderSide]
    is not part of the sources at hand; the spec gives its two values. *)
Inductive GenericOrderSide : Type := BUY | SELL.

(** Modelled from the spec: [app.models.generic_position_side.GenericPositionSide]
    is not part of the sources at hand; the spec gives its two values. *)
Inductive GenericPositionSide : Type := LONG | SHORT.

Definition order_side_eqb (a b : GenericOrderSide) : bool :=
  match a, b with
  | BUY, BUY | SELL, SELL => true
  | _, _ => false
  end.

Definition position_side_eqb (a b : GenericPositionSide) : bool :=
  match a, b with
  | LONG, LONG | SHORT, SHORT => true
  | _, _ => false
  end.

(** Modelled from the spec: [app.models.data_order.DataOrder] is not part of
    the sources at hand; its fields are those of the spec's Order and of the
    constructor calls in [paper_exchange.py].  An instance is truthy. *)
Record DataOrder : Type := mkOrder {
  order_id : string;
  order_side : GenericOrderSide;
  order_size : Q;
  order_price : Q;
  order_created_at : timestamp
}.

(** Modelled from the spec: [app.models.data_position.DataPosition] is not
    part of the sources at hand; its fields are those of the spec's Position
    and of the constructor call in [update_position].  An instance is
    truthy. *)
Record DataPosition : Type := mkPosition {
  pos_side : GenericPositionSide;
  pos_size : Q;
  pos_entry_price : Q;
  pos_created_at : timestamp
}.

(** One side of the order book: [(price, size)] levels, best price first. *)
Definition book_side : Type := list (Q * Q).

(** ** OrderSimulator *)

Module OrderSimulator.

Definition MAKER_FEE_RATE : Q := -0.0002.
Definition TAKER_FEE_RATE : Q := 0.0005.

(** [simulate_fill_delay]: the number of milliseconds slept, for a draw
    [jitter] of [random.randint(-20, 20)]. *)
Definition simulate_fill_delay (fill_delay_ms jitter : Z) : Z :=
  Z.max (fill_delay_ms + jitter) 10.

(** The [for] loop of [_get_available_liquidity], with its accumulator. *)
Fixpoint liquidity_loop (is_buy : bool) (price : Q) (orders_list : book_side)
         (total_liquidity : Q) : Q :=
  match orders_list with
  | [] => total_liquidity
  | (level_price, level_size) :: rest =>
      if is_buy then
        if Qle_bool level_price price
        then liquidity_loop is_buy price rest (total_liquidity + level_size)
        else total_liquidity
      else
        if Qle_bool price level_price
        then liquidity_loop is_buy price rest (total_liquidity + level_size)
        else total_liquidity
  end.

Definition _get_available_liquidity (orders_list : book_side) (price : Q)
           (is_buy : bool) : Q :=
  liquidity_loop is_buy price orders_list 0.

Definition check_limit_order_fill (order : DataOrder) (bid_price ask_price : Q)
           (buy_orders_list sell_orders_list : book_side)
  : option (Q * Q * bool) :=
  match order_side order with
  | BUY =>
      if Qle_bool ask_price (order_price order) then
        let is_maker := Qlt_bool (order_price order) bid_price in
        let fill_price :=
          if negb is_maker then pymin (order_price order) ask_price
          else order_price order in
        let available :=
          _get_available_liquidity sell_orders_list (order_price order) true in
        let fill_size :=
          if Qlt_bool available (order_size order) then available
          else order_size order in
        if Qlt_bool 0 fill_size then Some (fill_price, fill_size, is_maker)
        else None
      else None
  | SELL =>
      if Qle_bool (order_price order) bid_price then
        let is_maker := Qlt_bool ask_price (order_price order) in
        let fill_price :=
          if negb is_maker then pymax (order_price order) bid_price
          else order_price order in
        let available :=
          _get_available_liquidity buy_orders_list (order_price order) false in
        let fill_size :=
          if Qlt_bool available (order_size order) then available
          else order_size order in
        if Qlt_bool 0 fill_size then Some (fill_price, fill_size, is_maker)
        else None
      else None
  end.

(** The [for] loop of [_walk_order_book] over [orders_list[:10]]; the state
    is [(remaining_size, total_cost, total_filled)]. *)
Fixpoint walk_loop (levels : book_side)
         (remaining_size total_cost total_filled : Q) : Q * Q * Q :=
  match levels with
  | [] => (remaining_size, total_cost, total_filled)
  | (level_price, level_size) :: rest =>
      if Qle_bool remaining_size 0
      then (remaining_size, total_cost, total_filled)
      else
        let fill_at_level := pymin remaining_size level_size in
        walk_loop rest
                  (remaining_size - fill_at_level)
                  (total_cost + fill_at_level * level_price)
                  (total_filled + fill_at_level)
  end.

Definition _walk_order_book (orders_list : book_side) (size starting_price : Q)
           (is_buy : bool) : Q * Q :=
  match orders_list with
  | [] =>
      let slippage_factor := if is_buy then 1.01 else 0.99 in
      (starting_price * slippage_factor, size)
  | _ :: _ =>
      let '(remaining_size, total_cost, total_filled) :=
        walk_loop (firstn 10 orders_list) size 0 0 in
      let '(total_cost, total_filled) :=
        if Qlt_bool 0 remaining_size then
          let last_price :=
            fst (nth (Nat.min 9 (List.length orders_list - 1)) orders_list (0, 0)) in
          let slippage_factor := if is_buy then 1.02 else 0.98 in
          let remainder_price := last_price * slippage_factor in
          (total_cost + remaining_size * remainder_price,
           total_filled + remaining_size)
        else (total_cost, total_filled) in
      let average_price :=
        if Qlt_bool 0 total_filled then total_cost / total_filled
        else starting_price in
      (average_price, total_filled)
  end.

Definition simulate_market_order_fill (side : GenericOrderSide) (size : Q)
           (bid_price ask_price : Q)
           (buy_orders_list sell_orders_list : book_side) : Q * Q :=
  match side with
  | BUY => _walk_order_book sell_orders_list size ask_price true
  | SELL => _walk_order_book buy_orders_list size bid_price false
  end.

Definition calculate_fee (fill_price fill_size : Q) (is_maker : bool) : Q :=
  let notional := fill_price * fill_size in
  let fee_rate := if is_maker then MAKER_FEE_RATE else TAKER_FEE_RATE in
  notional * fee_rate.

Definition calculate_realized_pnl (entry_price exit_price size : Q)
           (is_long : bool) : Q :=
  if is_long then (exit_price - entry_price) * size
  else (entry_price - exit_price) * size.

End OrderSimulator.

(** ** The market-order walk over binary64

    [_walk_order_book] keeps [remaining_size], [total_cost] and
    [total_filled] in Python [float]s, updates them by repeated
    floating-point addition and subtraction, and returns the accumulator
    [total_filled], not [size].  Whether the two agree is decided by
    rounding.  The walk is therefore transliterated a second time, line for
    line, over IEEE 754 binary64 with round-to-nearest-even, which is the
    arithmetic of a Python [float]; comparisons are the IEEE ones (false on
    NaN), and the one division is guarded by [total_filled > 0], so it never
    raises. *)

Module Binary64.
Import PrimFloat.
#[local] Set Warnings "-inexact-float".

(** [min(a, b)] on floats. *)
Definition pymin (a b : float) : float := if ltb b a then b else a.

(** The [for] loop of [_walk_order_book] over [orders_list[:10]]. *)
Fixpoint walk_loop (levels : list (float * float))
         (remaining_size total_cost total_filled : float)
  : float * float * float :=
  match levels with
  | [] => (remaining_size, total_cost, total_filled)
  | (level_price, level_size) :: rest =>
      if leb remaining_size 0%float
      then (remaining_size, total_cost, total_filled)
      else
        let fill_at_level := pymin remaining_size level_size in
        walk_loop rest
                  (sub remaining_size fill_at_level)
                  (add total_cost (mul fill_at_level level_price))
                  (add total_filled fill_at_level)
  end.

Definition _walk_order_book (orders_list : list (float * float))
           (size starting_price : float) (is_buy : bool) : float * float :=
  match orders_list with
  | [] =>
      let slippage_factor := (if is_buy then 1.01 else 0.99)%float in
      (mul starting_price slippage_factor, size)
  | _ :: _ =>
      let '(remaining_size, total_cost, total_filled) :=
        walk_loop (firstn 10 orders_list) size 0%float 0%float in
      let '(total_cost, total_filled) :=
        if ltb 0%float remaining_size then
          let last_price :=
            fst (nth (Nat.min 9 (List.length orders_list - 1)) orders_list
                     (0%float, 0%float)) in
          let slippage_factor := (if is_buy then 1.02 else 0.98)%float in
          let remainder_price := mul last_price slippage_factor in
          (add total_cost (mul remaining_size remainder_price),
           add total_filled remaining_size)
        else (total_cost, total_filled) in
      let average_price :=
        if ltb 0%float total_filled then div total_cost total_filled
        else starting_price in
      (average_price, total_filled)
  end.

Definition simulate_market_order_fill (side : GenericOrderSide) (size : float)
           (bid_price ask_price : float)
           (buy_orders_list sell_orders_list : list (float * float))
  : float * float :=
  match side with
  | BUY => _walk_order_book sell_orders_list size ask_price true
  | SELL => _walk_order_book buy_orders_list size bid_price false
  end.

End Binary64.

(** ** PortfolioTracker *)

Record PortfolioTracker : Type := mkPortfolio {
  initial_balance : Q;
  balance : Q;
  max_leverage : Z;
  open_orders : list (string * DataOrder);
  open_positions : list (GenericPositionSide * DataPosition);
  total_trades : Z;
  winning_trades : Z;
  total_fees_paid : Q;
  peak_balance : Q;
  max_drawdown : Q
}.

(** Assignments to one attribute of [self]. *)

Definition set_balance (b : Q) (s : PortfolioTracker) : PortfolioTracker :=
  mkPortfolio (initial_balance s) b (max_leverage s) (open_orders s)
              (open_positions s) (total_trades s) (winning_trades s)
              (total_fees_paid s) (peak_balance s) (max_drawdown s).

Definition set_open_orders (o : list (string * DataOrder)) (s : PortfolioTracker)
  : PortfolioTracker :=
  mkPortfolio (initial_balance s) (balance s) (max_leverage s) o
              (open_positions s) (total_trades s) (winning_trades s)
              (total_fees_paid s) (peak_balance s) (max_drawdown s).

Definition set_open_positions (p : list (GenericPositionSide * DataPosition))
           (s : PortfolioTracker) : PortfolioTracker :=
  mkPortfolio (initial_balance s) (balance s) (max_leverage s) (open_orders s)
              p (total_trades s) (winning_trades s)
              (total_fees_paid s) (peak_balance s) (max_drawdown s).

Definition set_total_trades (n : Z) (s : PortfolioTracker) : PortfolioTracker :=
  mkPortfolio (initial_balance s) (balance s) (max_leverage s) (open_orders s)
              (open_positions s) n (winning_trades s)
              (total_fees_paid s) (peak_balance s) (max_drawdown s).

Definition set_winning_trades (n : Z) (s : PortfolioTracker) : PortfolioTracker :=
  mkPortfolio (initial_balance s) (balance s) (max_leverage s) (open_orders s)
              (open_positions s) (total_trades s) n
              (total_fees_paid s) (peak_balance s) (max_drawdown s).

Definition set_total_fees_paid (f : Q) (s : PortfolioTracker) : PortfolioTracker :=
  mkPortfolio (initial_balance s) (balance s) (max_leverage s) (open_orders s)
              (open_positions s) (total_trades s) (winning_trades s)
              f (peak_balance s) (max_drawdown s).

Definition set_peak_balance (p : Q) (s : PortfolioTracker) : PortfolioTracker :=
  mkPortfolio (initial_balance s) (balance s) (max_leverage s) (open_orders s)
              (open_positions s) (total_trades s) (winning_trades s)
              (total_fees_paid s) p (max_drawdown s).

Definition set_max_drawdown (d : Q) (s : PortfolioTracker) : PortfolioTracker :=
  mkPortfolio (initial_balance s) (balance s) (max_leverage s) (open_orders s)
              (open_positions s) (total_trades s) (winning_trades s)
              (total_fees_paid s) (peak_balance s) d.

(** Methods that can raise after having mutated [self]: a state transformer
    that reports how the call ended. *)
Definition M (A : Type) : Type := PortfolioTracker -> outcome A * PortfolioTracker.

Definition ret {A} (a : A) : M A := fun s => (Ok a, s).

Definition raise {A} (e : exn) : M A := fun s => (Raise e, s).

Definition bind {A B} (m : M A) (k : A -> M B) : M B :=
  fun s =>
    match m s with
    | (Ok a, s') => k a s'
    | (Raise e, s') => (Raise e, s')
    end.

Definition gets {A} (f : PortfolioTracker -> A) : M A := fun s => (Ok (f s), s).

Definition modify (f : PortfolioTracker -> PortfolioTracker) : M unit :=
  fun s => (Ok tt, f s).

Definition lift {A} (o : outcome A) : M A := fun s => (o, s).

Declare Scope py_scope.
Delimit Scope py_scope with py.
Notation "x <- m ;; k" := (bind m (fun x => k))
  (at level 61, m at next level, right associativity) : py_scope.
Notation "m ;; k" := (bind m (fun _ => k))
  (at level 61, right associativity) : py_scope.

Module Portfolio.

(** [PortfolioTracker.__init__] *)
Definition init (initial : Q) (leverage : Z) : PortfolioTracker :=
  mkPortfolio initial initial leverage [] [] 0%Z 0%Z 0 initial 0.

Definition add_order (order : DataOrder) (s : PortfolioTracker) : PortfolioTracker :=
  set_open_orders (dict_set String.eqb (order_id order) order (open_orders s)) s.

Definition remove_order (id : string) (s : PortfolioTracker)
  : option DataOrder * PortfolioTracker :=
  let '(order, rest) := dict_pop String.eqb id (open_orders s) in
  (order, set_open_orders rest s).

Definition get_order (id : string) (s : PortfolioTracker) : option DataOrder :=
  dict_get String.eqb id (open_orders s).

Definition update_position (now : timestamp) (side : GenericPositionSide)
           (size entry_price realized_pnl : Q) (s : PortfolioTracker)
  : PortfolioTracker :=
  let s1 :=
    if Qeq_bool size 0 then
      set_open_positions (dict_del position_side_eqb side (open_positions s)) s
    else
      let position := mkPosition side size entry_price now in
      set_open_positions
        (dict_set position_side_eqb side position (open_positions s)) s in
  if negb (Qeq_bool realized_pnl 0)
  then set_balance (balance s1 + realized_pnl) s1
  else s1.

Definition apply_fee (fee_amount : Q) (s : PortfolioTracker) : PortfolioTracker :=
  let s1 := set_balance (balance s - fee_amount) s in
  set_total_fees_paid (total_fees_paid s1 + fee_amount) s1.

Definition get_position (side : GenericPositionSide) (s : PortfolioTracker)
  : option DataPosition :=
  dict_get position_side_eqb side (open_positions s).

Definition get_total_position_value (mark_price : Q) (s : PortfolioTracker) : Q :=
  fold_left (fun total_value position =>
               total_value + Qabs (pos_size position) * mark_price)
            (dict_values (open_positions s)) 0.

Definition get_unrealized_pnl (mark_price : Q) (s : PortfolioTracker) : Q :=
  fold_left (fun total_pnl position =>
               let pnl :=
                 if position_side_eqb (pos_side position) LONG
                 then (mark_price - pos_entry_price position) * pos_size position
                 else (pos_entry_price position - mark_price) * pos_size position in
               total_pnl + pnl)
            (dict_values (open_positions s)) 0.

Definition get_equity (mark_price : Q) (s : PortfolioTracker) : Q :=
  balance s + get_unrealized_pnl mark_price s.

(** A query: the state is read, never written; the division by
    [max_leverage] raises when the leverage is zero. *)
Definition can_open_position (size price mark_price : Q) (s : PortfolioTracker)
  : outcome bool :=
  let notional_value := size * price in
  match pydiv notional_value (inject_Z (max_leverage s)) with
  | Raise e => Raise e
  | Ok required_margin =>
      let equity := get_equity mark_price s in
      let position_value := get_total_position_value mark_price s in
      match pydiv position_value (inject_Z (max_leverage s)) with
      | Raise e => Raise e
      | Ok used_margin =>
          let available_margin := equity - used_margin in
          Ok (Qle_bool required_margin available_margin)
      end
  end.

Definition record_trade (profitable : bool) : M unit :=
  (modify (fun s => set_total_trades (total_trades s + 1) s) ;;
   modify (fun s => if profitable
                    then set_winning_trades (winning_trades s + 1) s else s) ;;
   modify (fun s => if Qlt_bool (peak_balance s) (balance s)
                    then set_peak_balance (balance s) s else s) ;;
   peak <- gets peak_balance ;;
   bal <- gets balance ;;
   current_drawdown <- lift (pydiv (peak - bal) peak) ;;
   modify (fun s => if Qlt_bool (max_drawdown s) current_drawdown
                    then set_max_drawdown current_drawdown s else s))%py.

(** The dictionary returned by [get_statistics]. *)
Record statistics : Type := mkStatistics {
  st_initial_balance : Q;
  st_current_balance : Q;
  st_total_pnl : Q;
  st_total_return_pct : Q;
  st_total_trades : Z;
  st_winning_trades : Z;
  st_win_rate_pct : Q;
  st_total_fees_paid : Q;
  st_max_drawdown_pct : Q;
  st_open_positions : nat;
  st_open_orders : nat
}.

Definition get_statistics (s : PortfolioTracker) : statistics :=
  let win_rate :=
    if (0 <? total_trades s)%Z
    then inject_Z (winning_trades s) / inject_Z (total_trades s) * 100
    else 0 in
  let total_pnl := balance s - initial_balance s in
  let total_return :=
    if Qlt_bool 0 (initial_balance s)
    then total_pnl / initial_balance s * 100
    else 0 in
  mkStatistics (initial_balance s) (balance s) total_pnl total_return
               (total_trades s) (winning_trades s) win_rate
               (total_fees_paid s) (max_drawdown s * 100)
               (List.length (open_positions s)) (List.length (open_orders s)).

End Portfolio.

(** ** PaperTradingExchange *)

(** What the wrapped exchange exposes: both sides of the live book and the
    mark price ([None] while none has been received). *)
Record MarketData : Type := mkMarket {
  buy_orders_list : book_side;
  sell_orders_list : book_side;
  mark_price : option Q
}.

(** The dictionary returned for an accepted limit order. *)
Record order_dict : Type := mkOrderDict {
  od_id : string;
  od_side : GenericOrderSide;
  od_size : Q;
  od_price : Q
}.

(** The dictionary returned for an executed market order. *)
Record fill_dict : Type := mkFillDict {
  fd_side : GenericOrderSide;
  fd_size : Q;
  fd_price : Q;
  fd_fee : Q
}.

(** What one fill draws from outside the program: the latency jitter and the
    wall-clock readings of its (at most two) [update_position] calls. *)
Record entropy : Type := mkEntropy {
  jitter : Z;
  now_close : timestamp;
  now_open : timestamp
}.

(** A coroutine of the event loop.  [Done r s]: it has finished with result
    [r], leaving the ledger [s].  [Sleep d s k]: it awaits
    [asyncio.sleep(d)] with the ledger in state [s]; other coroutines run in
    the meantime, and it resumes as [k s' md'] on the ledger and the market
    data found then. *)
Inductive task (A : Type) : Type :=
| Done (r : outcome A) (s : PortfolioTracker)
| Sleep (seconds : Q) (s : PortfolioTracker)
        (k : PortfolioTracker -> MarketData -> task A).

Arguments Done {A} r s.
Arguments Sleep {A} seconds s k.

(** The ledger as it stands when the coroutine first gives up control. *)
Definition ledger_at_first_yield {A} (t : task A) : PortfolioTracker :=
  match t with
  | Done _ s => s
  | Sleep _ s _ => s
  end.

(** Sequencing, and [try ... except Exception]. *)
Fixpoint task_bind {A B} (t : task A) (md : MarketData)
         (k : A -> PortfolioTracker -> MarketData -> task B) : task B :=
  match t with
  | Done (Ok a) s => k a s md
  | Done (Raise e) s => Done (Raise e) s
  | Sleep d s c => Sleep d s (fun s' md' => task_bind (c s' md') md' k)
  end.

Fixpoint task_catch {A} (t : task A) (md : MarketData)
         (handler : exn -> PortfolioTracker -> MarketData -> task A) : task A :=
  match t with
  | Done (Ok a) s => Done (Ok a) s
  | Done (Raise e) s => handler e s md
  | Sleep d s c => Sleep d s (fun s' md' => task_catch (c s' md') md' handler)
  end.

(** The run of a coroutine that nothing interferes with: the ledger and the
    market data it finds on waking are those it left. *)
Fixpoint run_alone {A} (t : task A) (md : MarketData)
  : outcome A * PortfolioTracker :=
  match t with
  | Done r s => (r, s)
  | Sleep _ s k => run_alone (k s md) md
  end.

Definition first_price (levels : book_side) : option Q :=
  match levels with
  | [] => None
  | (p, _) :: _ => Some p
  end.

Module PaperTradingExchange.
Import OrderSimulator Portfolio.

Definition position_side_of (side : GenericOrderSide) : GenericPositionSide :=
  match side with BUY => LONG | SELL => SHORT end.

Definition opposite_side_of (side : GenericOrderSide) : GenericPositionSide :=
  match side with BUY => SHORT | SELL => LONG end.

Definition modify_limit_order (now : timestamp) (id : string)
           (side : GenericOrderSide) (size price : Q) (is_reduce : bool)
           (s : PortfolioTracker) : option order_dict * PortfolioTracker :=
  let '(old_order, s1) := remove_order id s in
  match old_order with
  | None => (None, s1)
  | Some _ =>
      let new_order := mkOrder id side size price now in
      (Some (mkOrderDict id side size price), add_order new_order s1)
  end.

(** [float(self.mark_price) if self.mark_price else fallback] *)
Definition mark_price_or (md : MarketData) (fallback : Q) : Q :=
  match mark_price md with
  | Some m => if Qeq_bool m 0 then fallback else m
  | None => fallback
  end.

(** [uuid_hex16] stands for [uuid.uuid4().hex[:16]]. *)
Definition open_limit_order (now : timestamp) (uuid_hex16 : string)
           (md : MarketData) (side : GenericOrderSide) (size price : Q)
           (is_reduce : bool) (s : PortfolioTracker)
  : outcome (option order_dict) * PortfolioTracker :=
  let place :=
    let id := ("paper_" ++ uuid_hex16)%string in
    let order := mkOrder id side size price now in
    (Ok (Some (mkOrderDict id side size price)), add_order order s) in
  if negb is_reduce then
    let mark_price_float := mark_price_or md price in
    match can_open_position size price mark_price_float s with
    | Raise e => (Raise e, s)
    | Ok can_open => if negb can_open then (Ok None, s) else place
    end
  else place.

Definition _process_fill (now1 now2 : timestamp) (side : GenericOrderSide)
           (fill_price fill_size : Q) (is_maker : bool) : M unit :=
  (let position_side := position_side_of side in
   let opposite_side := opposite_side_of side in
   opposite_position <- gets (get_position opposite_side) ;;
   current_position <- gets (get_position position_side) ;;
   fill_size <-
     match opposite_position with
     | Some opposite =>
         let close_size := pymin fill_size (pos_size opposite) in
         let is_long_close := position_side_eqb opposite_side LONG in
         let realized_pnl :=
           calculate_realized_pnl (pos_entry_price opposite) fill_price
                                  close_size is_long_close in
         let new_size := pos_size opposite - close_size in
         modify (update_position now1 opposite_side new_size
                                 (pos_entry_price opposite) realized_pnl) ;;
         record_trade (Qlt_bool 0 realized_pnl) ;;
         ret (fill_size - close_size)
     | None => ret fill_size
     end ;;
   if Qlt_bool 0 fill_size then
     match current_position with
     | Some current =>
         let total_size := pos_size current + fill_size in
         avg_entry <-
           lift (pydiv (pos_entry_price current * pos_size current
                        + fill_price * fill_size) total_size) ;;
         modify (update_position now2 position_side total_size avg_entry 0)
     | None =>
         modify (update_position now2 position_side fill_size fill_price 0)
     end
   else ret tt)%py.

Definition fill_delay_seconds (fill_delay_ms : Z) (ent : entropy) : Q :=
  inject_Z (simulate_fill_delay fill_delay_ms (jitter ent)) / 1000.

Definition open_market_order (fill_delay_ms : Z) (ent : entropy)
           (side : GenericOrderSide) (size : Q) (is_reduce : bool)
           (s : PortfolioTracker) (md : MarketData) : task (option fill_dict) :=
  match first_price (buy_orders_list md), first_price (sell_orders_list md) with
  | Some bid_price, Some ask_price =>
      if Qeq_bool bid_price 0 || Qeq_bool ask_price 0 then Done (Ok None) s
      else
        let margin :=
          if negb is_reduce then
            let mark_price_float :=
              mark_price_or md ((bid_price + ask_price) / 2) in
            can_open_position
              size
              (if order_side_eqb side BUY then ask_price else bid_price)
              mark_price_float s
          else Ok true in
        match margin with
        | Raise e => Done (Raise e) s
        | Ok false => Done (Ok None) s
        | Ok true =>
            Sleep (fill_delay_seconds fill_delay_ms ent) s
              (fun s' md' =>
                 let '(fill_price, fill_size) :=
                   simulate_market_order_fill
                     side size bid_price ask_price
                     (buy_orders_list md') (sell_orders_list md') in
                 let fee := calculate_fee fill_price fill_size false in
                 match (modify (apply_fee fee) ;;
                        _process_fill (now_close ent) (now_open ent) side
                                      fill_price fill_size false)%py s' with
                 | (Ok _, s'') =>
                     Done (Ok (Some (mkFillDict side fill_size fill_price fee))) s''
                 | (Raise e, s'') => Done (Raise e) s''
                 end)
        end
  | _, _ => Done (Ok None) s
  end.

(** The first [for] loop of [_monitor_orders]: the resting orders that the
    current book would fill, in the order of the dictionary. *)
Definition orders_to_fill (bid_price ask_price : Q) (md : MarketData)
           (s : PortfolioTracker) : list (DataOrder * (Q * Q * bool)) :=
  flat_map
    (fun order =>
       match check_limit_order_fill order bid_price ask_price
                                    (buy_orders_list md) (sell_orders_list md) with
       | Some fill_result => [(order, fill_result)]
       | None => []
       end)
    (dict_values (open_orders s)).

(** The second [for] loop of [_monitor_orders]; [ent i] is what the [i]-th
    fill of the iteration draws. *)
Fixpoint process_fills (fill_delay_ms : Z) (ent : nat -> entropy) (i : nat)
         (fills : list (DataOrder * (Q * Q * bool))) (s : PortfolioTracker)
  : task unit :=
  match fills with
  | [] => Done (Ok tt) s
  | (order, (fill_price, fill_size, is_maker)) :: rest =>
      let s1 := snd (remove_order (order_id order) s) in
      let fee := calculate_fee fill_price fill_size is_maker in
      let s2 := apply_fee fee s1 in
      Sleep (fill_delay_seconds fill_delay_ms (ent i)) s2
        (fun s' _ =>
           match _process_fill (now_close (ent i)) (now_open (ent i))
                               (order_side order) fill_price fill_size is_maker s' with
           | (Ok _, s'') => process_fills fill_delay_ms ent (S i) rest s''
           | (Raise e, s'') => Done (Raise e) s''
           end)
  end.

(** One turn of the [while self._monitoring] loop of [_monitor_orders],
    with its [try]/[except]. *)
Definition _monitor_orders_iteration (fill_delay_ms : Z) (ent : nat -> entropy)
           (s : PortfolioTracker) (md : MarketData) : task unit :=
  match buy_orders_list md, sell_orders_list md with
  | (bid_price, _) :: _, (ask_price, _) :: _ =>
      task_catch
        (task_bind
           (process_fills fill_delay_ms ent 0
                          (orders_to_fill bid_price ask_price md s) s)
           md
           (fun _ s' _ => Sleep 0.05 s' (fun s'' _ => Done (Ok tt) s'')))
        md
        (fun _ s' _ => Sleep 1 s' (fun s'' _ => Done (Ok tt) s''))
  | _, _ => Sleep 0.1 s (fun s' _ => Done (Ok tt) s')
  end.

Definition cancel_all_orders (s : PortfolioTracker) : PortfolioTracker :=
  set_open_orders [] s.

(** The [for] loop of [close_all_positions] over the snapshot
    [list(self.portfolio.open_positions.values())]; [ent i] is what the
    [i]-th market order draws.  The size travels as [Decimal(str(size))] and
    comes back through [float], which returns the float it started from. *)
Fixpoint close_positions (fill_delay_ms : Z) (ent : nat -> entropy) (i : nat)
         (positions : list DataPosition) (s : PortfolioTracker) (md : MarketData)
  : task unit :=
  match positions with
  | [] => Done (Ok tt) s
  | position :: rest =>
      let side :=
        if position_side_eqb (pos_side position) LONG then SELL else BUY in
      task_bind
        (open_market_order fill_delay_ms (ent i) side (pos_size position) true s md)
        md
        (fun _ s' md' => close_positions fill_delay_ms ent (S i) rest s' md')
  end.

Definition close_all_positions (fill_delay_ms : Z) (ent : nat -> entropy)
           (s : PortfolioTracker) (md : MarketData) : task unit :=
  close_positions fill_delay_ms ent 0 (dict_values (open_positions s)) s md.

(** What [critical_close_all] does to the ledger: the orders are cancelled,
    then the positions closed.  (It goes on to log the summary, to stop the
    monitoring task and to close the trade log, none of which writes to the
    ledger.) *)
Definition critical_close_all (fill_delay_ms : Z) (ent : nat -> entropy)
           (s : PortfolioTracker) (md : MarketData) : task unit :=
  close_all_positions fill_delay_ms ent (cancel_all_orders s) md.

End PaperTradingExchange.

(** * Notions of the specification *)

(** ** Liquidity at or better than a limit price

    The specification's wording: the sum of the level sizes whose price is
    at or better than the limit, taken in list order up to the first level
    that fails the threshold. *)

Fixpoint take_while {A} (f : A -> bool) (l : list A) : list A :=
  match l with
  | [] => []
  | x :: rest => if f x then x :: take_while f rest else []
  end.

Definition at_or_better (is_buy : bool) (limit : Q) (level : Q * Q) : bool :=
  if is_buy then Qle_bool (fst level) limit else Qle_bool limit (fst level).

Definition liquidity_at_or_better (is_buy : bool) (limit : Q)
           (levels : book_side) : Q :=
  fold_left Qplus (map snd (take_while (at_or_better is_buy limit) levels)) 0.

(** ** Amounts consumed by a market order

    [consumed_amounts levels size] lists, level by level, the price and the
    amount a market order takes while something of it remains to be filled;
    the size-weighted average price of a list of such amounts is its total
    cost over its total amount. *)

Fixpoint consumed_amounts (levels : book_side) (remaining : Q) : list (Q * Q) :=
  match levels with
  | [] => []
  | (p, sz) :: rest =>
      if Qle_bool remaining 0 then []
      else
        let amount := Qmin remaining sz in
        (p, amount) :: consumed_amounts rest (remaining - amount)
  end.

Definition total_amount (fills : list (Q * Q)) : Q :=
  fold_right (fun fill acc => snd fill + acc) 0 fills.

Definition total_cost (fills : list (Q * Q)) : Q :=
  fold_right (fun fill acc => fst fill * snd fill + acc) 0 fills.

Definition weighted_average (fills : list (Q * Q)) : Q :=
  total_cost fills / total_amount fills.

(** ** Sums over the open positions *)

Definition sum_over_positions (f : DataPosition -> Q) (s : PortfolioTracker) : Q :=
  fold_right (fun position acc => f position + acc) 0
             (dict_values (open_positions s)).

Definition position_unrealized_pnl (mark : Q) (position : DataPosition) : Q :=
  match pos_side position with
  | LONG => (mark - pos_entry_price position) * pos_size position
  | SHORT => (pos_entry_price position - mark) * pos_size position
  end.

Definition position_notional (mark : Q) (position : DataPosition) : Q :=
  Qabs (pos_size position) * mark.

(** ** Sequences of ledger operations

    The mutators of [PortfolioTracker], and the one mutation the exchange
    performs on the tracker's attributes directly ([open_orders.clear()]). *)

Inductive portfolio_op : Type :=
| AddOrder (order : DataOrder)
| RemoveOrder (id : string)
| UpdatePosition (now : timestamp) (side : GenericPositionSide)
                 (size entry_price realized_pnl : Q)
| ApplyFee (fee_amount : Q)
| RecordTrade (profitable : bool)
| ClearOrders.

Definition run_op (op : portfolio_op) (s : PortfolioTracker) : PortfolioTracker :=
  match op with
  | AddOrder order => Portfolio.add_order order s
  | RemoveOrder id => snd (Portfolio.remove_order id s)
  | UpdatePosition now side size entry_price realized_pnl =>
      Portfolio.update_position now side size entry_price realized_pnl s
  | ApplyFee fee_amount => Portfolio.apply_fee fee_amount s
  | RecordTrade profitable => snd (Portfolio.record_trade profitable s)
  | ClearOrders => PaperTradingExchange.cancel_all_orders s
  end.

Definition run_ops (ops : list portfolio_op) (s : PortfolioTracker)
  : PortfolioTracker :=
  fold_left (fun s op => run_op op s) ops s.

Definition is_record_trade (op : portfolio_op) : bool :=
  match op with
  | RecordTrade _ => true
  | _ => false
  end.

(** ** Auxiliary notions *)

(** The state [record_trade] reaches before its division. *)
Definition before_division (profitable : bool) (s : PortfolioTracker)
  : PortfolioTracker :=
  let s1 := set_total_trades (total_trades s + 1) s in
  let s2 := if profitable
            then set_winning_trades (winning_trades s1 + 1) s1 else s1 in
  if Qlt_bool (peak_balance s2) (balance s2)
  then set_peak_balance (balance s2) s2 else s2.

(** The ledger with its resting orders replaced, nothing else touched. *)
Definition same_but_orders (s s' : PortfolioTracker) : Prop :=
  initial_balance s' = initial_balance s
  /\ balance s' = balance s
  /\ max_leverage s' = max_leverage s
  /\ open_positions s' = open_positions s
  /\ total_trades s' = total_trades s
  /\ winning_trades s' = winning_trades s
  /\ total_fees_paid s' = total_fees_paid s
  /\ peak_balance s' = peak_balance s
  /\ max_drawdown s' = max_drawdown s.

(** The second half of [_process_fill]: what a remaining fill size does to
    the position on the order's own side, [current] being that position as
    read at the start of the call. *)
Definition open_step (now : timestamp) (own : GenericPositionSide)
           (fill_price remaining : Q) (current : option DataPosition)
  : M unit :=
  fun s =>
    if Qlt_bool 0 remaining then
      match current with
      | Some cur =>
          match pydiv (pos_entry_price cur * pos_size cur + fill_price * remaining)
                      (pos_size cur + remaining) with
          | Ok avg_entry =>
              (Ok tt,
               Portfolio.update_position
                 now own (pos_size cur + remaining) avg_entry 0 s)
          | Raise e => (Raise e, s)
          end
      | None =>
          (Ok tt, Portfolio.update_position now own remaining fill_price 0 s)
      end
    else (Ok tt, s).

(** The specification's step 3: a positive remaining size adds to the
    position of the own side at the size-weighted average entry price, or
    opens one at the fill price; nothing remaining leaves that side alone. *)
Definition opens_or_adds (now : timestamp) (own : GenericPositionSide)
           (fill_price remaining : Q) (s s' : PortfolioTracker) : Prop :=
  (remaining <= 0 ->
   Portfolio.get_position own s' = Portfolio.get_position own s)
  /\ (0 < remaining ->
      match Portfolio.get_position own s with
      | Some old =>
          exists p,
            Portfolio.get_position own s' = Some p
            /\ pos_side p = own
            /\ pos_size p == pos_size old + remaining
            /\ pos_entry_price p
               == (pos_size old * pos_entry_price old + remaining * fill_price)
                  / (pos_size old + remaining)
      | None =>
          Portfolio.get_position own s'
          = Some (mkPosition own remaining fill_price now)
      end).

(** Size already held on a side (zero when there is no position). *)
Definition held_size (side : GenericPositionSide) (s : PortfolioTracker) : Q :=
  match Portfolio.get_position side s with
  | Some p => pos_size p
  | None => 0
  end.

(** A ledger in good standing: the peak balance is positive and every open
    position has a positive size. *)
Definition ledger_wf (s : PortfolioTracker) : Prop :=
  0 < peak_balance s
  /\ forall side p, Portfolio.get_position side s = Some p -> 0 < pos_size p.

(** ** Further notions *)

Definition is_winning_trade (op : portfolio_op) : bool :=
  match op with
  | RecordTrade true => true
  | _ => false
  end.

(** At most one of the two sides is open. *)
Definition one_sided (s : PortfolioTracker) : Prop :=
  Portfolio.get_position LONG s = None \/ Portfolio.get_position SHORT s = None.

(** Every position is filed under its own side, each side at most once. *)
Definition positions_keyed (s : PortfolioTracker) : Prop :=
  NoDup (map fst (open_positions s))
  /\ forall k p, In (k, p) (open_positions s) -> pos_side p = k.

(** Both sides of the book are quoted at a non-zero price. *)
Definition quoted (md : MarketData) : Prop :=
  (exists bid, first_price (buy_orders_list md) = Some bid /\ ~ bid == 0)
  /\ (exists ask, first_price (sell_orders_list md) = Some ask /\ ~ ask == 0).

(** The side of the book a market order walks. *)
Definition opposing_book (side : GenericOrderSide) (md : MarketData) : book_side :=
  match side with
  | BUY => sell_orders_list md
  | SELL => buy_orders_list md
  end.

(** The best level of a book side alone offers the size. *)
Definition best_level_covers (size : Q) (levels : book_side) : Prop :=
  match levels with
  | (_, level_size) :: _ => size <= level_size
  | [] => False
  end.

(** The order side that closes a position. *)
Definition closing_side (position : DataPosition) : GenericOrderSide :=
  match pos_side position with
  | LONG => SELL
  | SHORT => BUY
  end.



(** ** Sample data

    A ledger of 1000 USDC at leverage 5 holding one resting BUY of 10 at 99,
    and a book whose best ask has come down to that price. *)

Definition sample_order : DataOrder := mkOrder "paper_1" BUY 10 99 0%Z.

Definition sample_ledger : PortfolioTracker :=
  Portfolio.add_order sample_order (Portfolio.init 1000 5).

Definition sample_market : MarketData :=
  mkMarket [(98, 10)] [(99, 15)] None.

Definition no_jitter (_ : nat) : entropy := mkEntropy 0%Z 0%Z 0%Z.

(** One turn of the monitoring loop on the sample data. *)
Definition sample_monitor_turn : task unit :=
  PaperTradingExchange._monitor_orders_iteration
    100%Z no_jitter sample_ledger sample_market.

(** The same ledger holding a short of 5 entered at 100. *)
Definition sample_short_ledger : PortfolioTracker :=
  Portfolio.update_position 0%Z SHORT 5 100 0 sample_ledger.

(** The book of the slippage test: three ask levels of 10. *)
Definition sample_asks : book_side := [(100, 10); (100.5, 10); (101, 10)].

(** * Properties *)

(** ** Comparisons, [min] and [max] *)

Lemma Qlt_bool_iff (x y : Q) : Qlt_bool x y = true <-> x < y.
Proof.
  unfold Qlt_bool. rewrite negb_true_iff.
  destruct (Qle_bool y x) eqn:E.
  - apply Qle_bool_iff in E. split; [discriminate | intro H; lra].
  - split; [intros _ | reflexivity].
    destruct (Qlt_le_dec x y) as [H | H]; [exact H |].
    apply Qle_bool_iff in H. congruence.
Qed.

Lemma Qlt_bool_false_iff (x y : Q) : Qlt_bool x y = false <-> y <= x.
Proof.
  destruct (Qlt_bool x y) eqn:E.
  - apply Qlt_bool_iff in E. split; [discriminate | intro H; lra].
  - split; [intros _ | reflexivity].
    destruct (Qlt_le_dec x y) as [H | H]; [| exact H].
    apply Qlt_bool_iff in H. congruence.
Qed.

Lemma Qle_bool_false_iff (x y : Q) : Qle_bool x y = false <-> y < x.
Proof.
  destruct (Qle_bool x y) eqn:E.
  - apply Qle_bool_iff in E. split; [discriminate | intro H; lra].
  - split; [intros _ | reflexivity].
    destruct (Qlt_le_dec y x) as [H | H]; [exact H |].
    apply Qle_bool_iff in H. congruence.
Qed.

Lemma Qeq_bool_false_iff (x y : Q) : Qeq_bool x y = false <-> ~ x == y.
Proof.
  destruct (Qeq_bool x y) eqn:E.
  - apply Qeq_bool_iff in E. split; [discriminate | tauto].
  - split; [| reflexivity]. intros _ H. apply Qeq_bool_iff in H. congruence.
Qed.

(** Python's [min] and [max] pick the same argument as [Qmin] and [Qmax]. *)
Lemma pymin_Qmin (a b : Q) : pymin a b = Qmin a b.
Proof.
  unfold pymin, Qmin, GenericMinMax.gmin.
  destruct (Qlt_bool b a) eqn:E.
  - apply Qlt_bool_iff in E.
    pose proof (proj1 (Qgt_alt _ _) E) as C. now rewrite C.
  - apply Qlt_bool_false_iff in E. pose proof (proj1 (Qle_alt _ _) E) as N.
    destruct (a ?= b) eqn:C; congruence.
Qed.

Lemma pymax_Qmax (a b : Q) : pymax a b = Qmax a b.
Proof.
  unfold pymax, Qmax, GenericMinMax.gmax.
  destruct (Qlt_bool a b) eqn:E.
  - apply Qlt_bool_iff in E.
    pose proof (proj1 (Qlt_alt _ _) E) as C. now rewrite C.
  - apply Qlt_bool_false_iff in E. pose proof (proj1 (Qge_alt _ _) E) as N.
    destruct (a ?= b) eqn:C; congruence.
Qed.

Lemma Qmin_cases (a b : Q) :
  (a <= b /\ Qmin a b = a) \/ (b < a /\ Qmin a b = b).
Proof.
  rewrite <- pymin_Qmin. unfold pymin.
  destruct (Qlt_bool b a) eqn:E.
  - right. apply Qlt_bool_iff in E. auto.
  - left. apply Qlt_bool_false_iff in E. auto.
Qed.

Lemma Qmax_cases (a b : Q) :
  (b <= a /\ Qmax a b = a) \/ (a < b /\ Qmax a b = b).
Proof.
  rewrite <- pymax_Qmax. unfold pymax.
  destruct (Qlt_bool a b) eqn:E.
  - right. apply Qlt_bool_iff in E. auto.
  - left. apply Qlt_bool_false_iff in E. auto.
Qed.

(** ** Dictionaries *)

Section PyDictFacts.
Context {K V : Type} (eqb : K -> K -> bool).
Hypothesis eqb_spec : forall a b, eqb a b = true <-> a = b.

Lemma eqb_refl' (a : K) : eqb a a = true.
Proof. now apply eqb_spec. Qed.

Lemma eqb_neq (a b : K) : a <> b -> eqb a b = false.
Proof.
  intro H. destruct (eqb a b) eqn:E; [| reflexivity].
  apply eqb_spec in E. contradiction.
Qed.

Lemma dict_get_set_same (k : K) (v : V) (d : list (K * V)) :
  dict_get eqb k (dict_set eqb k v d) = Some v.
Proof.
  induction d as [| [k' v'] d IH]; simpl.
  - now rewrite eqb_refl'.
  - destruct (eqb k k') eqn:E; simpl; rewrite E; auto.
Qed.

Lemma dict_get_set_other (k k0 : K) (v : V) (d : list (K * V)) :
  k0 <> k -> dict_get eqb k0 (dict_set eqb k v d) = dict_get eqb k0 d.
Proof.
  intro N. induction d as [| [k' v'] d IH]; simpl.
  - now rewrite (eqb_neq k0 k).
  - destruct (eqb k k') eqn:E; simpl.
    + apply eqb_spec in E; subst k'. now rewrite (eqb_neq k0 k).
    + destruct (eqb k0 k'); auto.
Qed.

Lemma dict_get_del_same (k : K) (d : list (K * V)) :
  dict_get eqb k (dict_del eqb k d) = None.
Proof.
  induction d as [| [k' v'] d IH]; simpl; auto.
  destruct (eqb k k') eqn:E; simpl; [| rewrite E]; auto.
Qed.

Lemma dict_get_del_other (k k0 : K) (d : list (K * V)) :
  k0 <> k -> dict_get eqb k0 (dict_del eqb k d) = dict_get eqb k0 d.
Proof.
  intro N. induction d as [| [k' v'] d IH]; simpl; auto.
  destruct (eqb k k') eqn:E; simpl.
  - apply eqb_spec in E; subst k'. now rewrite (eqb_neq k0 k).
  - destruct (eqb k0 k'); auto.
Qed.

(** Popping a key that is absent leaves the dictionary as it was. *)
Lemma dict_del_absent (k : K) (d : list (K * V)) :
  dict_get eqb k d = None -> dict_del eqb k d = d.
Proof.
  induction d as [| [k' v'] d IH]; simpl; auto.
  destruct (eqb k k'); [discriminate |]. intro H. now rewrite IH.
Qed.
End PyDictFacts.

Lemma position_side_eqb_spec (a b : GenericPositionSide) :
  position_side_eqb a b = true <-> a = b.
Proof. destruct a, b; simpl; split; congruence. Qed.

Lemma opposite_is_not_own (side : GenericOrderSide) :
  PaperTradingExchange.opposite_side_of side
  <> PaperTradingExchange.position_side_of side.
Proof. destruct side; discriminate. Qed.

(** ** Fees *)

(** C7.  The fee is the notional [price * size] times a fixed rate: the
    maker rate is the negative rebate -0.0002, the taker rate the positive
    0.0005; on (100, 10) the maker fee is -0.2 and the taker fee is 0.5. *)
Theorem calculate_fee_is_notional_times_rate :
  (forall price size is_maker,
      OrderSimulator.calculate_fee price size is_maker
      == price * size * (if is_maker then -0.0002 else 0.0005))
  /\ OrderSimulator.MAKER_FEE_RATE == -0.0002
  /\ OrderSimulator.TAKER_FEE_RATE == 0.0005
  /\ OrderSimulator.MAKER_FEE_RATE < 0 < OrderSimulator.TAKER_FEE_RATE
  /\ OrderSimulator.calculate_fee 100 10 true == -0.2
  /\ OrderSimulator.calculate_fee 100 10 false == 0.5.
Proof.
  split; [| repeat split; reflexivity].
  intros price size [|]; unfold OrderSimulator.calculate_fee; cbv zeta;
    reflexivity.
Qed.

(** ** Limit-order fills *)

Module LimitFill.
Import OrderSimulator.

Lemma liquidity_loop_take_while (is_buy : bool) (limit : Q) (levels : book_side) :
  forall acc,
    liquidity_loop is_buy limit levels acc
    = fold_left Qplus
                (map snd (take_while (at_or_better is_buy limit) levels)) acc.
Proof.
  induction levels as [| [p sz] rest IH]; intro acc; simpl; [reflexivity |].
  unfold at_or_better at 1. simpl.
  destruct is_buy.
  - destruct (Qle_bool p limit); simpl; [apply IH | reflexivity].
  - destruct (Qle_bool limit p); simpl; [apply IH | reflexivity].
Qed.

(** [_get_available_liquidity] computes the specification's sum. *)
Lemma get_available_liquidity_spec (levels : book_side) (limit : Q) (is_buy : bool) :
  _get_available_liquidity levels limit is_buy
  = liquidity_at_or_better is_buy limit levels.
Proof. apply liquidity_loop_take_while. Qed.

(** The partial-fill test of the code caps the size by [min]. *)
Lemma capped_size (available size : Q) :
  (if Qlt_bool available size then available else size) = Qmin size available.
Proof. rewrite <- pymin_Qmin. reflexivity. Qed.

End LimitFill.

(** C2.  A BUY limit order does not fill while [bestAsk > order.price]; when
    [bestAsk <= order.price] its size is [min(order.size, L)], [L] being the
    sell liquidity at or below the limit, it fills exactly when that size is
    positive, as maker exactly when [order.price < bestBid], at the limit
    price for a maker and at [min(order.price, bestAsk)] for a taker.  The
    SELL case mirrors it on the bid side. *)
Theorem check_limit_order_fill_spec
        (order : DataOrder) (bid ask : Q) (buys sells : book_side) :
  let limit := order_price order in
  let result := OrderSimulator.check_limit_order_fill order bid ask buys sells in
  (order_side order = BUY ->
   let fill_size := Qmin (order_size order) (liquidity_at_or_better true limit sells) in
   (limit < ask -> result = None)
   /\ (ask <= limit -> fill_size <= 0 -> result = None)
   /\ (ask <= limit -> 0 < fill_size ->
       exists fill_price is_maker,
         result = Some (fill_price, fill_size, is_maker)
         /\ (is_maker = true <-> limit < bid)
         /\ (is_maker = true -> fill_price = limit)
         /\ (is_maker = false -> fill_price = Qmin limit ask)))
  /\
  (order_side order = SELL ->
   let fill_size := Qmin (order_size order) (liquidity_at_or_better false limit buys) in
   (bid < limit -> result = None)
   /\ (limit <= bid -> fill_size <= 0 -> result = None)
   /\ (limit <= bid -> 0 < fill_size ->
       exists fill_price is_maker,
         result = Some (fill_price, fill_size, is_maker)
         /\ (is_maker = true <-> ask < limit)
         /\ (is_maker = true -> fill_price = limit)
         /\ (is_maker = false -> fill_price = Qmax limit bid))).
Proof.
  intros limit result. subst limit result.
  unfold OrderSimulator.check_limit_order_fill.
  split; intros Hside; rewrite Hside; cbv zeta;
    rewrite LimitFill.capped_size, LimitFill.get_available_liquidity_spec.
  - repeat split.
    + intro H. apply Qle_bool_false_iff in H. now rewrite H.
    + intros H Hz. apply Qle_bool_iff in H. rewrite H.
      apply Qlt_bool_false_iff in Hz. now rewrite Hz.
    + intros H Hz. apply Qle_bool_iff in H. rewrite H.
      apply Qlt_bool_iff in Hz. rewrite Hz.
      eexists; eexists; split; [reflexivity |].
      split; [apply Qlt_bool_iff |].
      split; intro E; rewrite E; simpl; [reflexivity | apply pymin_Qmin].
  - repeat split.
    + intro H. apply Qle_bool_false_iff in H. now rewrite H.
    + intros H Hz. apply Qle_bool_iff in H. rewrite H.
      apply Qlt_bool_false_iff in Hz. now rewrite Hz.
    + intros H Hz. apply Qle_bool_iff in H. rewrite H.
      apply Qlt_bool_iff in Hz. rewrite Hz.
      eexists; eexists; split; [reflexivity |].
      split; [apply Qlt_bool_iff |].
      split; intro E; rewrite E; simpl; [reflexivity | apply pymax_Qmax].
Qed.

(** ** Market-order fills *)

Module MarketFill.
Import OrderSimulator.

Lemma total_amount_app (l : list (Q * Q)) (x : Q * Q) :
  total_amount (l ++ [x]) == total_amount l + snd x.
Proof.
  induction l as [| y l IH]; simpl; [lra |]. rewrite IH. lra.
Qed.

Lemma total_cost_app (l : list (Q * Q)) (x : Q * Q) :
  total_cost (l ++ [x]) == total_cost l + fst x * snd x.
Proof.
  induction l as [| y l IH]; simpl; [lra |]. rewrite IH. lra.
Qed.

(** What the loop leaves in its three variables. *)
Lemma walk_loop_spec (levels : book_side) :
  forall remaining cost filled r c f,
    walk_loop levels remaining cost filled = (r, c, f) ->
    let fills := consumed_amounts levels remaining in
    r == remaining - total_amount fills
    /\ c == cost + total_cost fills
    /\ f == filled + total_amount fills.
Proof.
  induction levels as [| [p sz] rest IH]; intros remaining cost filled r c f; simpl.
  - intro E; injection E as <- <- <-. repeat split; lra.
  - destruct (Qle_bool remaining 0).
    + intro E; injection E as <- <- <-. simpl. repeat split; lra.
    + rewrite pymin_Qmin. intro E. apply IH in E.
      destruct E as (Hr & Hc & Hf). simpl.
      repeat split; [rewrite Hr | rewrite Hc | rewrite Hf]; ring.
Qed.

(** The order never overshoots: what remains stays non-negative. *)
Lemma walk_loop_remaining_nonneg (levels : book_side) :
  forall remaining cost filled r c f,
    0 <= remaining ->
    walk_loop levels remaining cost filled = (r, c, f) ->
    0 <= r.
Proof.
  induction levels as [| [p sz] rest IH]; intros remaining cost filled r c f Hpos; simpl.
  - intro E; injection E as <- <- <-. exact Hpos.
  - destruct (Qle_bool remaining 0) eqn:Hle.
    + intro E; injection E as <- <- <-. exact Hpos.
    + apply IH. rewrite pymin_Qmin.
      destruct (Qmin_cases remaining sz) as [[_ ->] | [Hlt ->]]; lra.
Qed.

(** If something remains after the loop, every level was visited. *)
Lemma walk_loop_exhausts (levels : book_side) :
  forall remaining cost filled r c f,
    walk_loop levels remaining cost filled = (r, c, f) ->
    0 < r ->
    map fst (consumed_amounts levels remaining) = map fst levels.
Proof.
  induction levels as [| [p sz] rest IH]; intros remaining cost filled r c f; simpl;
    [reflexivity |].
  destruct (Qle_bool remaining 0) eqn:Hle.
  - intro E; injection E as <- <- <-. apply Qle_bool_iff in Hle. intro; lra.
  - rewrite pymin_Qmin. intros E Hr. simpl. f_equal. eapply IH; eauto.
Qed.

Lemma consumed_amounts_prefix (levels : book_side) :
  forall remaining,
    map fst (consumed_amounts levels remaining)
    = firstn (List.length (consumed_amounts levels remaining)) (map fst levels).
Proof.
  induction levels as [| [p sz] rest IH]; intro remaining; simpl; [reflexivity |].
  destruct (Qle_bool remaining 0); simpl; [reflexivity |]. now rewrite <- IH.
Qed.

Lemma consumed_amounts_length (levels : book_side) :
  forall remaining,
    (List.length (consumed_amounts levels remaining) <= List.length levels)%nat.
Proof.
  induction levels as [| [p sz] rest IH]; intro remaining; simpl; [lia |].
  destruct (Qle_bool remaining 0); simpl; [lia |].
  specialize (IH (remaining - Qmin remaining sz)). lia.
Qed.

(** [orders_list[min(n, len - 1)]] is the last element of
    [orders_list[:n + 1]]. *)
Lemma nth_min_last {A} (d : A) (n : nat) :
  forall l : list A,
    l <> [] ->
    nth (Nat.min n (List.length l - 1)) l d = last (firstn (S n) l) d.
Proof.
  induction n as [| n IH]; intros [| x t] Hne; try congruence.
  - destruct t; reflexivity.
  - destruct t as [| y t'].
    + reflexivity.
    + change (firstn (S (S n)) (x :: y :: t'))
        with (x :: firstn (S n) (y :: t')).
      change (last (x :: firstn (S n) (y :: t')) d)
        with (last (firstn (S n) (y :: t')) d).
      rewrite <- IH by discriminate.
      simpl List.length. replace (S (S (List.length t')) - 1)%nat
        with (S (List.length t')) by lia.
      replace (S (List.length t') - 1)%nat with (List.length t') by lia.
      reflexivity.
Qed.

Lemma fst_last (l : list (Q * Q)) (d : Q * Q) :
  fst (last l d) = last (map fst l) (fst d).
Proof.
  induction l as [| x [| y t] IH]; try reflexivity. exact IH.
Qed.

End MarketFill.

(** The market-order walk in exact arithmetic.  For a positive size the
    amounts consumed add up to the size.  On an empty opposing book the
    order fills at the reference price times 1.01 (BUY) or 0.99 (SELL).
    Otherwise it consumes amounts from at most the first ten levels; if
    they do not cover the size, the remainder is priced at the last consumed
    level's price times 1.02 (BUY) or 0.98 (SELL); the price returned is the
    size-weighted average of all consumed amounts.  The sum is taken here
    without rounding; the code takes it in binary64, and returns it. *)
Theorem simulate_market_order_fill_full_execution
        (side : GenericOrderSide) (size bid ask : Q) (buys sells : book_side) :
  0 < size ->
  let book := match side with BUY => sells | SELL => buys end in
  let reference := match side with BUY => ask | SELL => bid end in
  let slippage1 := match side with BUY => 1.01 | SELL => 0.99 end in
  let slippage2 := match side with BUY => 1.02 | SELL => 0.98 end in
  let price :=
    fst (OrderSimulator.simulate_market_order_fill side size bid ask buys sells) in
  let filled :=
    snd (OrderSimulator.simulate_market_order_fill side size bid ask buys sells) in
  filled == size
  /\ (book = [] -> price == reference * slippage1)
  /\ (book <> [] ->
      let fills := consumed_amounts (firstn 10 book) size in
      let remainder := size - total_amount fills in
      (List.length fills <= 10)%nat
      /\ map fst fills = firstn (List.length fills) (map fst book)
      /\ 0 <= remainder
      /\ (remainder == 0 ->
          total_amount fills == size /\ price == weighted_average fills)
      /\ (0 < remainder ->
          let worst := fst (last fills (0, 0)) in
          let all_fills := fills ++ [(worst * slippage2, remainder)] in
          map fst fills = map fst (firstn 10 book)
          /\ total_amount all_fills == size
          /\ price == weighted_average all_fills)).
Proof.
  intros Hsize book reference slippage1 slippage2 price filled.
  assert (Hwalk :
            OrderSimulator.simulate_market_order_fill side size bid ask buys sells
            = OrderSimulator._walk_order_book
                book size reference (match side with BUY => true | SELL => false end))
    by (destruct side; reflexivity).
  subst price filled. rewrite Hwalk. clear Hwalk.
  assert (Hs1 : slippage1
                = if match side with BUY => true | SELL => false end
                  then 1.01 else 0.99) by (destruct side; reflexivity).
  assert (Hs2 : slippage2
                = if match side with BUY => true | SELL => false end
                  then 1.02 else 0.98) by (destruct side; reflexivity).
  rewrite Hs1, Hs2. clear Hs1 Hs2 slippage1 slippage2.
  revert Hsize.
  generalize (match side with BUY => true | SELL => false end) as is_buy.
  generalize reference as ref. generalize book as bk. clear.
  intros bk ref is_buy Hsize.
  destruct bk as [| lvl bk'].
  - cbn [OrderSimulator._walk_order_book fst snd].
    split; [reflexivity |]. split; [intros _; reflexivity |].
    intro H; congruence.
  - unfold OrderSimulator._walk_order_book. cbv beta iota.
    assert (Hne : lvl :: bk' <> []) by discriminate.
    remember (lvl :: bk') as bk eqn:Hbk. clear Hbk lvl bk'.
    destruct (OrderSimulator.walk_loop (firstn 10 bk) size 0 0)
      as [[r c] f] eqn:Hloop.
    pose proof (MarketFill.walk_loop_spec _ _ _ _ _ _ _ Hloop) as (Hr & Hc & Hf).
    pose proof (MarketFill.walk_loop_remaining_nonneg
                  _ _ _ _ _ _ _ (Qlt_le_weak _ _ Hsize) Hloop) as Hr0.
    cbv zeta in Hr, Hc, Hf.
    set (fills := consumed_amounts (firstn 10 bk) size) in *.
    assert (Hlen : (List.length fills <= 10)%nat).
    { subst fills.
      pose proof (MarketFill.consumed_amounts_length (firstn 10 bk) size) as H1.
      pose proof (firstn_le_length 10 bk). lia. }
    assert (Hpre : map fst fills = firstn (List.length fills) (map fst bk)).
    { subst fills. rewrite MarketFill.consumed_amounts_prefix.
      rewrite <- firstn_map, firstn_firstn. f_equal. lia. }
    destruct (Qlt_bool 0 r) eqn:Hrem.
    + apply Qlt_bool_iff in Hrem.
      pose proof (MarketFill.walk_loop_exhausts _ _ _ _ _ _ _ Hloop Hrem) as Hall.
      fold fills in Hall.
      assert (Hworst :
                fst (nth (Nat.min 9 (List.length bk - 1)) bk (0, 0))
                = fst (last fills (0, 0))).
      { rewrite (MarketFill.nth_min_last (0, 0) 9 bk Hne).
        rewrite !MarketFill.fst_last. now rewrite Hall. }
      rewrite Hworst.
      assert (Hfilled : f + r == size) by (rewrite Hr, Hf; ring).
      assert (Hpos : Qlt_bool 0 (f + r) = true)
        by (apply Qlt_bool_iff; rewrite Hfilled; exact Hsize).
      rewrite Hpos. cbn [fst snd].
      split; [exact Hfilled |].
      split; [intro; congruence |].
      intros _. cbv zeta.
      split; [exact Hlen |]. split; [exact Hpre |].
      split; [rewrite <- Hr; exact Hr0 |].
      split; [intro Hzero; rewrite <- Hr in Hzero; lra |].
      intros _. split; [exact Hall |].
      assert (Htot : total_amount
                       (fills ++ [(fst (last fills (0, 0))
                                   * (if is_buy then 1.02 else 0.98),
                                   size - total_amount fills)]) == size).
      { rewrite MarketFill.total_amount_app. cbn [snd]. ring. }
      split; [exact Htot |].
      unfold weighted_average. rewrite Htot, MarketFill.total_cost_app.
      cbn [fst snd]. rewrite Hfilled, Hc, <- Hr.
      apply Qdiv_comp; [ring | reflexivity].
    + apply Qlt_bool_false_iff in Hrem.
      assert (Hzero : r == 0) by lra.
      assert (Hfilled : f == size) by (rewrite Hf; rewrite Hr in Hzero; lra).
      assert (Hpos : Qlt_bool 0 f = true)
        by (apply Qlt_bool_iff; rewrite Hfilled; exact Hsize).
      rewrite Hpos. cbn [fst snd].
      split; [exact Hfilled |].
      split; [intro; congruence |].
      intros _. cbv zeta.
      split; [exact Hlen |]. split; [exact Hpre |].
      split; [rewrite <- Hr; exact Hr0 |].
      split.
      * intros _. split; [rewrite Hr in Hzero; lra |].
        unfold weighted_average. rewrite Hc.
        apply Qdiv_comp; [ring | rewrite Hf; ring].
      * intro Hcontra. rewrite <- Hr in Hcontra. lra.
Qed.

(** *** The same walk in binary64 *)

Section MarketFillRounding.
Import PrimFloat.
#[local] Set Warnings "-inexact-float".
Local Open Scope float_scope.

(** C3, evaluated at a failing input.  In binary64 a market BUY of 0.7
    against asks of 0.1, 0.2, 0.3 and 5, all priced at 100, is not reported
    filled for 0.7: [total_filled] accumulates 0.1 + 0.2 + 0.3 + 0.1 to
    0.7000000000000001, which is what [simulate_market_order_fill] returns
    as the filled size, strictly more than the size requested, at an
    average price of 99.99999999999999, below every price in the book. *)
Theorem market_fill_reports_more_than_requested :
  let size := 0.7 in
  let fill :=
    Binary64.simulate_market_order_fill
      BUY size 99 100 [(99, 10)] [(100, 0.1); (100, 0.2); (100, 0.3); (100, 5)] in
  fill = (99.99999999999999, 0.7000000000000001)
  /\ snd fill <> size
  /\ (size <? snd fill) = true
  /\ (fst fill <? 100) = true.
Proof.
  cbv zeta. split; [vm_compute; reflexivity |].
  split.
  - intro H.
    pose proof (f_equal (fun x => eqb x 0.7) H) as E.
    vm_compute in E. discriminate E.
  - split; vm_compute; reflexivity.
Qed.

End MarketFillRounding.

(** ** Margin check *)

Module Margin.
Import Portfolio.

Lemma fold_left_sum {A} (f : A -> Q) (l : list A) :
  forall acc,
    fold_left (fun total x => total + f x) l acc
    == acc + fold_right (fun x total => f x + total) 0 l.
Proof.
  induction l as [| x l IH]; intro acc; simpl; [lra |]. rewrite IH. lra.
Qed.

Lemma get_total_position_value_sum (mark : Q) (s : PortfolioTracker) :
  get_total_position_value mark s
  == sum_over_positions (position_notional mark) s.
Proof.
  unfold get_total_position_value, sum_over_positions, position_notional.
  rewrite (fold_left_sum (fun p => Qabs (pos_size p) * mark)). lra.
Qed.

Lemma get_unrealized_pnl_sum (mark : Q) (s : PortfolioTracker) :
  get_unrealized_pnl mark s
  == sum_over_positions (position_unrealized_pnl mark) s.
Proof.
  unfold get_unrealized_pnl, sum_over_positions.
  rewrite (fold_left_sum
             (fun p => if position_side_eqb (pos_side p) LONG
                       then (mark - pos_entry_price p) * pos_size p
                       else (pos_entry_price p - mark) * pos_size p)).
  rewrite Qplus_0_l.
  induction (dict_values (open_positions s)) as [| p l IH]; simpl; [reflexivity |].
  rewrite IH. unfold position_unrealized_pnl.
  destruct (pos_side p); simpl; reflexivity.
Qed.

Lemma pydiv_nonzero (a : Q) (z : Z) :
  z <> 0%Z -> pydiv a (inject_Z z) = Ok (a / inject_Z z).
Proof.
  intro H. unfold pydiv.
  destruct (Qeq_bool (inject_Z z) 0) eqn:E; [| reflexivity].
  apply Qeq_bool_iff in E. unfold Qeq in E. simpl in E. lia.
Qed.

End Margin.

(** C5.  With a non-zero leverage, [can_open_position] answers true exactly
    when [equity - usedMargin >= requiredMargin], for
    [requiredMargin = size * price / maxLeverage],
    [equity = balance + unrealizedPnl(mark)] (the per-position PnL being
    [(mark - entry) * size] for a long and [(entry - mark) * size] for a
    short) and [usedMargin = (sum of |size| * mark) / maxLeverage]. *)
Theorem can_open_position_iff_margin
        (s : PortfolioTracker) (size price mark : Q) :
  max_leverage s <> 0%Z ->
  let leverage := inject_Z (max_leverage s) in
  let required_margin := size * price / leverage in
  let equity := balance s + sum_over_positions (position_unrealized_pnl mark) s in
  let used_margin := sum_over_positions (position_notional mark) s / leverage in
  exists b,
    Portfolio.can_open_position size price mark s = Ok b
    /\ (b = true <-> required_margin <= equity - used_margin).
Proof.
  intros Hlev leverage required_margin equity used_margin.
  unfold Portfolio.can_open_position.
  rewrite !(Margin.pydiv_nonzero _ _ Hlev).
  eexists; split; [reflexivity |].
  rewrite Qle_bool_iff. unfold Portfolio.get_equity.
  rewrite Margin.get_unrealized_pnl_sum, Margin.get_total_position_value_sum.
  reflexivity.
Qed.

(** ** Peak balance and drawdown *)

Module Drawdown.
Import Portfolio.

Lemma before_division_fields (profitable : bool) (s : PortfolioTracker) :
  let s' := before_division profitable s in
  peak_balance s' = Qmax (peak_balance s) (balance s)
  /\ balance s' = balance s
  /\ max_drawdown s' = max_drawdown s
  /\ total_trades s' = (total_trades s + 1)%Z
  /\ winning_trades s'
     = (if profitable then winning_trades s + 1 else winning_trades s)%Z
  /\ open_orders s' = open_orders s
  /\ open_positions s' = open_positions s
  /\ total_fees_paid s' = total_fees_paid s
  /\ initial_balance s' = initial_balance s
  /\ max_leverage s' = max_leverage s.
Proof.
  unfold before_division. rewrite <- pymax_Qmax. unfold pymax.
  destruct profitable; simpl;
    destruct (Qlt_bool (peak_balance s) (balance s)); simpl;
    repeat split; reflexivity.
Qed.

(** [record_trade], case by case on the peak reached. *)
Lemma record_trade_unfold (profitable : bool) (s : PortfolioTracker) :
  let s' := before_division profitable s in
  record_trade profitable s
  = if Qeq_bool (peak_balance s') 0 then (Raise ZeroDivisionError, s')
    else (Ok tt,
          let current_drawdown :=
            (peak_balance s' - balance s') / peak_balance s' in
          if Qlt_bool (max_drawdown s') current_drawdown
          then set_max_drawdown current_drawdown s' else s').
Proof.
  unfold record_trade, before_division, bind, modify, gets, lift, pydiv.
  cbv zeta.
  destruct profitable; simpl;
    destruct (Qlt_bool (peak_balance s) (balance s)); simpl;
    match goal with
    | |- context [Qeq_bool ?p 0] => destruct (Qeq_bool p 0)
    end; reflexivity.
Qed.

Lemma record_trade_monotone (profitable : bool) (s : PortfolioTracker) :
  let s' := snd (record_trade profitable s) in
  peak_balance s <= peak_balance s' /\ max_drawdown s <= max_drawdown s'.
Proof.
  cbv zeta. rewrite record_trade_unfold. cbv zeta.
  pose proof (before_division_fields profitable s) as (Hp & Hb & Hd & _).
  cbv zeta in Hp, Hb, Hd.
  assert (Hpeak : peak_balance s <= Qmax (peak_balance s) (balance s))
    by apply Q.le_max_l.
  destruct (Qeq_bool (peak_balance (before_division profitable s)) 0); simpl.
  - rewrite Hp, Hd. split; [exact Hpeak | apply Qle_refl].
  - match goal with
    | |- context [Qlt_bool ?a ?b] => destruct (Qlt_bool a b) eqn:E
    end; simpl.
    + split; [rewrite Hp; exact Hpeak |].
      apply Qlt_bool_iff in E. rewrite Hd in E. apply Qlt_le_weak, E.
    + rewrite Hp, Hd. split; [exact Hpeak | apply Qle_refl].
Qed.

Lemma other_ops_keep_peak_and_drawdown (op : portfolio_op) (s : PortfolioTracker) :
  is_record_trade op = false ->
  peak_balance (run_op op s) = peak_balance s
  /\ max_drawdown (run_op op s) = max_drawdown s.
Proof.
  destruct op; simpl; try discriminate; intros _.
  - split; reflexivity.
  - split; reflexivity.
  - unfold update_position.
    destruct (Qeq_bool size 0); destruct (negb (Qeq_bool realized_pnl 0));
      split; reflexivity.
  - split; reflexivity.
  - split; reflexivity.
Qed.

Lemma run_op_monotone (op : portfolio_op) (s : PortfolioTracker) :
  peak_balance s <= peak_balance (run_op op s)
  /\ max_drawdown s <= max_drawdown (run_op op s).
Proof.
  destruct (is_record_trade op) eqn:E.
  - destruct op; try discriminate. apply record_trade_monotone.
  - destruct (other_ops_keep_peak_and_drawdown op s E) as [-> ->].
    split; apply Qle_refl.
Qed.

End Drawdown.

(** ** Resting orders: modify, place, cancel *)

Module Orders.
Import Portfolio PaperTradingExchange.

Lemma set_open_orders_same (s : PortfolioTracker) :
  set_open_orders (open_orders s) s = s.
Proof. destruct s; reflexivity. Qed.

(** Inserting under a key that is absent appends the entry. *)
Lemma dict_set_absent {V} (k : string) (v : V) (d : list (string * V)) :
  dict_get String.eqb k d = None ->
  dict_set String.eqb k v d = d ++ [(k, v)].
Proof.
  induction d as [| [k' v'] d IH]; simpl; [reflexivity |].
  destruct (String.eqb k k'); [discriminate |]. intro H. now rewrite IH.
Qed.

Lemma same_but_orders_set (o : list (string * DataOrder)) (s : PortfolioTracker) :
  same_but_orders s (set_open_orders o s).
Proof. repeat split. Qed.

Lemma modify_present (now : timestamp) (id : string) (side : GenericOrderSide)
      (size price : Q) (is_reduce : bool) (s : PortfolioTracker) (old : DataOrder) :
  get_order id s = Some old ->
  modify_limit_order now id side size price is_reduce s
  = (Some (mkOrderDict id side size price),
     set_open_orders
       (dict_del String.eqb id (open_orders s)
        ++ [(id, mkOrder id side size price now)]) s).
Proof.
  unfold get_order, modify_limit_order, remove_order, dict_pop, add_order.
  intros ->. simpl.
  rewrite dict_set_absent by apply (dict_get_del_same String.eqb).
  reflexivity.
Qed.

Lemma modify_absent (now : timestamp) (id : string) (side : GenericOrderSide)
      (size price : Q) (is_reduce : bool) (s : PortfolioTracker) :
  get_order id s = None ->
  modify_limit_order now id side size price is_reduce s = (None, s).
Proof.
  unfold get_order, modify_limit_order, remove_order, dict_pop.
  intro H. rewrite H, (dict_del_absent _ _ _ H). simpl.
  now rewrite set_open_orders_same.
Qed.

Lemma get_order_after_modify (id id' : string)
      (new_order : DataOrder) (s : PortfolioTracker) :
  get_order id'
            (set_open_orders
               (dict_del String.eqb id (open_orders s) ++ [(id, new_order)]) s)
  = if String.eqb id' id then Some new_order else get_order id' s.
Proof.
  unfold get_order. simpl.
  rewrite <- dict_set_absent by apply (dict_get_del_same String.eqb).
  destruct (String.eqb id' id) eqn:E.
  - apply String.eqb_eq in E; subst id'.
    apply (dict_get_set_same _ String.eqb_eq).
  - apply String.eqb_neq in E.
    rewrite (dict_get_set_other _ String.eqb_eq) by exact E.
    apply (dict_get_del_other _ String.eqb_eq), E.
Qed.

End Orders.

(** C8.  If an order with the given id is resting, [modify_limit_order]
    removes it and inserts, under the same id, a new order with the new
    side, size and price, and returns the record of that order; the rest of
    the ledger is untouched.  If no order has that id it returns [None] and
    the whole portfolio is as before. *)
Theorem modify_limit_order_cancel_replace
        (now : timestamp) (id : string) (side : GenericOrderSide)
        (size price : Q) (is_reduce : bool) (s : PortfolioTracker) :
  let result := PaperTradingExchange.modify_limit_order
                  now id side size price is_reduce s in
  (Portfolio.get_order id s <> None ->
   let new_order := mkOrder id side size price now in
   fst result = Some (mkOrderDict id side size price)
   /\ open_orders (snd result)
      = dict_del String.eqb id (open_orders s) ++ [(id, new_order)]
   /\ Portfolio.get_order id (snd result) = Some new_order
   /\ (forall id', id' <> id ->
                   Portfolio.get_order id' (snd result) = Portfolio.get_order id' s)
   /\ same_but_orders s (snd result))
  /\ (Portfolio.get_order id s = None -> result = (None, s)).
Proof.
  intro result. subst result. split.
  - destruct (Portfolio.get_order id s) as [old |] eqn:Hold; [| congruence].
    intros _ new_order.
    rewrite (Orders.modify_present now id side size price is_reduce s old Hold).
    cbn [fst snd]. fold new_order.
    split; [reflexivity |]. split; [reflexivity |].
    split; [| split].
    + rewrite Orders.get_order_after_modify. now rewrite String.eqb_refl.
    + intros id' Hne. rewrite Orders.get_order_after_modify.
      apply String.eqb_neq in Hne. now rewrite Hne.
    + apply Orders.same_but_orders_set.
  - apply Orders.modify_absent.
Qed.

(** C9.  [cancel_all_orders] empties the set of resting orders whatever the
    state, and nothing else changes: balance, positions, trade counters,
    peak balance, maximum drawdown and fees paid are as before. *)
Theorem cancel_all_orders_frame (s : PortfolioTracker) :
  let s' := PaperTradingExchange.cancel_all_orders s in
  open_orders s' = []
  /\ balance s' = balance s
  /\ open_positions s' = open_positions s
  /\ total_trades s' = total_trades s
  /\ winning_trades s' = winning_trades s
  /\ peak_balance s' = peak_balance s
  /\ max_drawdown s' = max_drawdown s
  /\ total_fees_paid s' = total_fees_paid s
  /\ initial_balance s' = initial_balance s
  /\ max_leverage s' = max_leverage s.
Proof. repeat split. Qed.

(** C10.  [modify_limit_order] consults no margin: whenever the id is
    resting the replacement is accepted, whatever the new size and price
    and whether or not the order is reduce-only, hence also when
    [can_open_position] refuses them.  [open_limit_order], for an order that
    is not reduce-only, follows [can_open_position]: refused, it returns
    [None] and creates no order; approved, it places the order. *)
Theorem modify_limit_order_has_no_margin_check
        (now : timestamp) (uuid_hex16 id : string) (md : MarketData)
        (side : GenericOrderSide) (size price : Q) (s : PortfolioTracker) :
  let margin :=
    Portfolio.can_open_position
      size price (PaperTradingExchange.mark_price_or md price) s in
  (Portfolio.get_order id s <> None ->
   forall is_reduce,
     let result := PaperTradingExchange.modify_limit_order
                     now id side size price is_reduce s in
     fst result = Some (mkOrderDict id side size price)
     /\ Portfolio.get_order id (snd result)
        = Some (mkOrder id side size price now))
  /\ (margin = Ok false ->
      PaperTradingExchange.open_limit_order
        now uuid_hex16 md side size price false s = (Ok None, s))
  /\ (margin = Ok true ->
      let new_id := ("paper_" ++ uuid_hex16)%string in
      PaperTradingExchange.open_limit_order
        now uuid_hex16 md side size price false s
      = (Ok (Some (mkOrderDict new_id side size price)),
         Portfolio.add_order (mkOrder new_id side size price now) s)).
Proof.
  intro margin. subst margin. split; [| split].
  - intros Hid is_reduce result. subst result.
    destruct (Portfolio.get_order id s) as [old |] eqn:Hold; [| congruence].
    rewrite (Orders.modify_present now id side size price is_reduce s old Hold).
    cbn [fst snd]. split; [reflexivity |].
    rewrite Orders.get_order_after_modify. now rewrite String.eqb_refl.
  - intro Hmargin. unfold PaperTradingExchange.open_limit_order. simpl.
    now rewrite Hmargin.
  - intro Hmargin. unfold PaperTradingExchange.open_limit_order. simpl.
    now rewrite Hmargin.
Qed.

(** ** The position-update procedure *)

Module Fill.
Import OrderSimulator Portfolio PaperTradingExchange.

Lemma get_position_update_same (now : timestamp) (side : GenericPositionSide)
      (size entry pnl : Q) (s : PortfolioTracker) :
  get_position side (update_position now side size entry pnl s)
  = if Qeq_bool size 0 then None else Some (mkPosition side size entry now).
Proof.
  unfold get_position, update_position.
  destruct (Qeq_bool size 0); destruct (negb (Qeq_bool pnl 0)); simpl.
  1, 2: apply (dict_get_del_same position_side_eqb).
  1, 2: apply (dict_get_set_same _ position_side_eqb_spec).
Qed.

Lemma get_position_update_other (now : timestamp) (side side' : GenericPositionSide)
      (size entry pnl : Q) (s : PortfolioTracker) :
  side' <> side ->
  get_position side' (update_position now side size entry pnl s)
  = get_position side' s.
Proof.
  intro N. unfold get_position, update_position.
  destruct (Qeq_bool size 0); destruct (negb (Qeq_bool pnl 0)); simpl.
  1, 2: apply (dict_get_del_other _ position_side_eqb_spec), N.
  1, 2: apply (dict_get_set_other _ position_side_eqb_spec), N.
Qed.

(** [update_position] books the realized PnL and touches nothing but the
    positions and the balance. *)
Lemma update_position_frame (now : timestamp) (side : GenericPositionSide)
      (size entry pnl : Q) (s : PortfolioTracker) :
  let s' := update_position now side size entry pnl s in
  balance s' == balance s + pnl
  /\ open_orders s' = open_orders s
  /\ total_trades s' = total_trades s
  /\ winning_trades s' = winning_trades s
  /\ total_fees_paid s' = total_fees_paid s
  /\ peak_balance s' = peak_balance s
  /\ max_drawdown s' = max_drawdown s.
Proof.
  unfold update_position.
  destruct (Qeq_bool pnl 0) eqn:E; destruct (Qeq_bool size 0); simpl;
    repeat split; try lra.
  all: apply Qeq_bool_iff in E; lra.
Qed.

Lemma update_position_no_pnl (now : timestamp) (side : GenericPositionSide)
      (size entry : Q) (s : PortfolioTracker) :
  balance (update_position now side size entry 0 s) = balance s.
Proof. unfold update_position. destruct (Qeq_bool size 0); reflexivity. Qed.

(** With a positive peak, [record_trade] returns normally. *)
Lemma record_trade_ok (profitable : bool) (s : PortfolioTracker) :
  0 < peak_balance s ->
  exists s',
    record_trade profitable s = (Ok tt, s')
    /\ balance s' = balance s
    /\ open_positions s' = open_positions s
    /\ open_orders s' = open_orders s
    /\ total_fees_paid s' = total_fees_paid s
    /\ total_trades s' = (total_trades s + 1)%Z
    /\ winning_trades s'
       = (if profitable then winning_trades s + 1 else winning_trades s)%Z.
Proof.
  intro Hpeak. rewrite Drawdown.record_trade_unfold. cbv zeta.
  pose proof (Drawdown.before_division_fields profitable s)
    as (Hp & Hb & Hd & Ht & Hw & Ho & Hpos & Hf & _).
  cbv zeta in *.
  assert (Hnz : Qeq_bool (peak_balance (before_division profitable s)) 0 = false).
  { apply Qeq_bool_false_iff. rewrite Hp.
    pose proof (Q.le_max_l (peak_balance s) (balance s)). lra. }
  rewrite Hnz. eexists; split; [reflexivity |].
  match goal with
  | |- context [Qlt_bool ?a ?b] => destruct (Qlt_bool a b)
  end; simpl; repeat split; assumption.
Qed.

(** [_process_fill] as the sequence of its ledger calls. *)
Lemma process_fill_unfold (now1 now2 : timestamp) (side : GenericOrderSide)
      (fill_price fill_size : Q) (is_maker : bool) (s : PortfolioTracker) :
  _process_fill now1 now2 side fill_price fill_size is_maker s
  = let own := position_side_of side in
    let opp := opposite_side_of side in
    match get_position opp s with
    | Some opposite =>
        let close_size := Qmin fill_size (pos_size opposite) in
        let realized_pnl :=
          calculate_realized_pnl (pos_entry_price opposite) fill_price
                                 close_size (position_side_eqb opp LONG) in
        let closed :=
          update_position now1 opp (pos_size opposite - close_size)
                          (pos_entry_price opposite) realized_pnl s in
        match record_trade (Qlt_bool 0 realized_pnl) closed with
        | (Ok _, s2) =>
            open_step now2 own fill_price (fill_size - close_size)
                      (get_position own s) s2
        | (Raise e, s2) => (Raise e, s2)
        end
    | None => open_step now2 own fill_price fill_size (get_position own s) s
    end.
Proof.
  unfold _process_fill. cbv zeta. unfold bind at 1. unfold gets at 1.
  unfold bind at 1. unfold gets at 1.
  destruct (get_position (opposite_side_of side) s) as [opposite |].
  - rewrite pymin_Qmin.
    unfold bind at 1. unfold bind at 1. unfold modify at 1.
    unfold bind at 1.
    destruct (record_trade _ _) as [[[] | e] s2]; [| reflexivity].
    unfold ret at 1. unfold open_step.
    destruct (Qlt_bool 0 _); [| reflexivity].
    destruct (get_position (position_side_of side) s) as [cur |]; [| reflexivity].
    unfold bind, lift, modify.
    destruct (pydiv _ _); reflexivity.
  - unfold bind at 1. unfold ret at 1. unfold open_step.
    destruct (Qlt_bool 0 _); [| reflexivity].
    destruct (get_position (position_side_of side) s) as [cur |]; [| reflexivity].
    unfold bind, lift, modify.
    destruct (pydiv _ _); reflexivity.
Qed.

(** The opening step on a ledger [s2] whose own-side position is still the
    one read at the start. *)
Lemma open_step_spec (now : timestamp) (own : GenericPositionSide)
      (fill_price remaining : Q) (s2 : PortfolioTracker) :
  (forall cur, get_position own s2 = Some cur -> 0 <= pos_size cur) ->
  exists s',
    open_step now own fill_price remaining (get_position own s2) s2 = (Ok tt, s')
    /\ opens_or_adds now own fill_price remaining s2 s'
    /\ balance s' = balance s2
    /\ (forall side', side' <> own -> get_position side' s' = get_position side' s2)
    /\ open_orders s' = open_orders s2
    /\ total_trades s' = total_trades s2
    /\ winning_trades s' = winning_trades s2
    /\ total_fees_paid s' = total_fees_paid s2.
Proof.
  intro Hcur. unfold open_step, opens_or_adds.
  destruct (Qlt_bool 0 remaining) eqn:Hrem.
  - apply Qlt_bool_iff in Hrem.
    destruct (get_position own s2) as [cur |] eqn:Hown.
    + specialize (Hcur cur eq_refl).
      assert (Hnz : ~ pos_size cur + remaining == 0) by lra.
      unfold pydiv. apply Qeq_bool_false_iff in Hnz. rewrite Hnz.
      eexists; split; [reflexivity |].
      pose proof (update_position_frame
                    now own (pos_size cur + remaining)
                    ((pos_entry_price cur * pos_size cur + fill_price * remaining)
                     / (pos_size cur + remaining)) 0 s2)
        as (_ & Ho & Ht & Hw & Hf & _).
      cbv zeta in *.
      split; [split; [intro; lra | intros _] |].
      * rewrite get_position_update_same, Hnz.
        eexists; split; [reflexivity |]. simpl.
        split; [reflexivity |]. split; [reflexivity |].
        apply Qdiv_comp; [ring | reflexivity].
      * split; [apply update_position_no_pnl |].
        split; [intros side' N; now apply get_position_update_other |].
        repeat split; assumption.
    + eexists; split; [reflexivity |].
      pose proof (update_position_frame now own remaining fill_price 0 s2)
        as (_ & Ho & Ht & Hw & Hf & _).
      cbv zeta in *.
      split; [split; [intro; lra | intros _] |].
      * rewrite get_position_update_same.
        assert (Hnz : ~ remaining == 0) by lra.
        apply Qeq_bool_false_iff in Hnz. now rewrite Hnz.
      * split; [apply update_position_no_pnl |].
        split; [intros side' N; now apply get_position_update_other |].
        repeat split; assumption.
  - apply Qlt_bool_false_iff in Hrem.
    eexists; split; [reflexivity |].
    split; [split; [reflexivity | intro; lra] |].
    repeat split; reflexivity.
Qed.

End Fill.

(** C1.  For a fill run through [_process_fill] on a ledger with a positive
    peak balance and no negative own-side position: if a position stands on
    the opposite side, [closeSize = min(fillSize, opposite.size)] of it is
    closed first; the realized PnL, computed from its entry price and the
    fill price, enters the balance in the very [update_position] call that
    shrinks the position, or removes it when nothing is left; one trade is
    recorded, winning exactly when the PnL is positive; and only the
    remaining [fillSize - closeSize], when positive, opens the own-side
    position at the fill price or adds to it at the size-weighted average
    entry.  A fill larger than the opposite position leaves nothing on the
    opposite side and puts the leftover on the own side. *)
Theorem process_fill_closes_then_opens
        (now1 now2 : timestamp) (side : GenericOrderSide)
        (fill_price fill_size : Q) (is_maker : bool) (s : PortfolioTracker) :
  let own := PaperTradingExchange.position_side_of side in
  let opp := PaperTradingExchange.opposite_side_of side in
  0 < peak_balance s ->
  (forall cur, Portfolio.get_position own s = Some cur -> 0 <= pos_size cur) ->
  exists s',
    PaperTradingExchange._process_fill
      now1 now2 side fill_price fill_size is_maker s = (Ok tt, s')
    /\ (forall opposite,
           Portfolio.get_position opp s = Some opposite ->
           let close_size := Qmin fill_size (pos_size opposite) in
           let realized_pnl :=
             OrderSimulator.calculate_realized_pnl
               (pos_entry_price opposite) fill_price close_size
               (position_side_eqb opp LONG) in
           let new_size := pos_size opposite - close_size in
           let closed :=
             Portfolio.update_position
               now1 opp new_size (pos_entry_price opposite) realized_pnl s in
           (balance closed == balance s + realized_pnl
            /\ (new_size == 0 -> Portfolio.get_position opp closed = None)
            /\ (~ new_size == 0 ->
                Portfolio.get_position opp closed
                = Some (mkPosition opp new_size (pos_entry_price opposite) now1)))
           /\ balance s' == balance s + realized_pnl
           /\ Portfolio.get_position opp s' = Portfolio.get_position opp closed
           /\ total_trades s' = (total_trades s + 1)%Z
           /\ (0 < realized_pnl -> winning_trades s' = (winning_trades s + 1)%Z)
           /\ (realized_pnl <= 0 -> winning_trades s' = winning_trades s)
           /\ opens_or_adds now2 own fill_price (fill_size - close_size) s s'
           /\ (pos_size opposite < fill_size ->
               Portfolio.get_position opp s' = None
               /\ exists p,
                   Portfolio.get_position own s' = Some p
                   /\ pos_size p
                      == held_size own s + (fill_size - pos_size opposite)))
    /\ (Portfolio.get_position opp s = None ->
        balance s' = balance s
        /\ Portfolio.get_position opp s' = None
        /\ total_trades s' = total_trades s
        /\ winning_trades s' = winning_trades s
        /\ opens_or_adds now2 own fill_price fill_size s s').
Proof.
  intros own opp Hpeak Hcur.
  assert (Hne : opp <> own) by apply opposite_is_not_own.
  rewrite Fill.process_fill_unfold. cbv zeta. fold own opp.
  destruct (Portfolio.get_position opp s) as [opposite |] eqn:Hopp.
  - set (close_size := Qmin fill_size (pos_size opposite)).
    set (realized_pnl :=
           OrderSimulator.calculate_realized_pnl
             (pos_entry_price opposite) fill_price close_size
             (position_side_eqb opp LONG)).
    set (new_size := pos_size opposite - close_size).
    set (closed := Portfolio.update_position
                     now1 opp new_size (pos_entry_price opposite) realized_pnl s).
    pose proof (Fill.update_position_frame
                  now1 opp new_size (pos_entry_price opposite) realized_pnl s)
      as (Hbal & _ & Htr & Hwin & _ & Hpk & _).
    cbv zeta in Hbal, Htr, Hwin, Hpk. fold closed in Hbal, Htr, Hwin, Hpk.
    assert (Hown_closed :
              Portfolio.get_position own closed = Portfolio.get_position own s).
    { apply Fill.get_position_update_other. auto. }
    assert (Hopp_closed :
              Portfolio.get_position opp closed
              = if Qeq_bool new_size 0 then None
                else Some (mkPosition opp new_size (pos_entry_price opposite) now1))
      by apply Fill.get_position_update_same.
    destruct (Fill.record_trade_ok (Qlt_bool 0 realized_pnl) closed)
      as (s2 & Hrec & Hb2 & Hp2 & _ & _ & Ht2 & Hw2);
      [rewrite Hpk; exact Hpeak |].
    rewrite Hrec.
    assert (Hget2 : forall sd,
               Portfolio.get_position sd s2 = Portfolio.get_position sd closed).
    { intro sd. unfold Portfolio.get_position. now rewrite Hp2. }
    assert (Hown2 : Portfolio.get_position own s = Portfolio.get_position own s2)
      by (now rewrite Hget2, Hown_closed).
    rewrite Hown2.
    destruct (Fill.open_step_spec now2 own fill_price (fill_size - close_size) s2)
      as (s' & Hstep & Hopen & Hb' & Hoth & _ & Ht' & Hw' & _).
    { intros cur Hc. apply Hcur. now rewrite Hown2. }
    exists s'. split; [exact Hstep |].
    assert (Hopen_s :
              opens_or_adds now2 own fill_price (fill_size - close_size) s s').
    { unfold opens_or_adds in *. rewrite Hown2. exact Hopen. }
    split.
    + intros opposite' Heq. injection Heq as <-. cbv zeta.
      fold close_size. fold realized_pnl. fold new_size. fold closed.
      split.
      { split; [exact Hbal |]. rewrite Hopp_closed. split.
        - intro Hz. apply Qeq_bool_iff in Hz. now rewrite Hz.
        - intro Hz. apply Qeq_bool_false_iff in Hz. now rewrite Hz. }
      split; [rewrite Hb', Hb2; exact Hbal |].
      split; [rewrite (Hoth opp Hne); apply Hget2 |].
      split; [rewrite Ht', Ht2, Htr; reflexivity |].
      split.
      { intro Hpos. apply Qlt_bool_iff in Hpos.
        rewrite Hw', Hw2, Hpos, Hwin. reflexivity. }
      split.
      { intro Hnon. apply Qlt_bool_false_iff in Hnon.
        rewrite Hw', Hw2, Hnon, Hwin. reflexivity. }
      split; [exact Hopen_s |].
      intro Hlarger.
      assert (Hclose : close_size = pos_size opposite).
      { subst close_size.
        destruct (Qmin_cases fill_size (pos_size opposite)) as [[Hle _] | [_ ->]];
          [lra | reflexivity]. }
      split.
      * rewrite (Hoth opp Hne), Hget2, Hopp_closed.
        assert (Hz : new_size == 0) by (subst new_size; rewrite Hclose; ring).
        apply Qeq_bool_iff in Hz. now rewrite Hz.
      * destruct Hopen_s as [_ Hadd].
        assert (Hleft : 0 < fill_size - close_size) by (rewrite Hclose; lra).
        specialize (Hadd Hleft). unfold held_size.
        destruct (Portfolio.get_position own s) as [old |].
        -- destruct Hadd as (p & Hp & _ & Hsz & _).
           exists p. split; [exact Hp |]. rewrite Hsz, Hclose. reflexivity.
        -- eexists; split; [exact Hadd |]. simpl. rewrite Hclose. ring.
    + intro Hcontra. discriminate.
  - destruct (Fill.open_step_spec now2 own fill_price fill_size s Hcur)
      as (s' & Hstep & Hopen & Hb' & Hoth & _ & Ht' & Hw' & _).
    exists s'. split; [exact Hstep |].
    split; [intros opposite Hcontra; discriminate |].
    intros _. split; [exact Hb' |].
    split; [rewrite (Hoth opp Hne); exact Hopp |].
    split; [exact Ht' |]. split; [exact Hw' | exact Hopen].
Qed.


(** ** Latency and the ledger *)

Module Latency.
Import OrderSimulator Portfolio PaperTradingExchange.

(** Fees paid and resting orders are out of reach of [record_trade],
    whether it returns or raises. *)
Lemma record_trade_keeps_fees (profitable : bool) (s : PortfolioTracker) :
  total_fees_paid (snd (record_trade profitable s)) = total_fees_paid s
  /\ open_orders (snd (record_trade profitable s)) = open_orders s.
Proof.
  rewrite Drawdown.record_trade_unfold. cbv zeta.
  pose proof (Drawdown.before_division_fields profitable s)
    as (_ & _ & _ & _ & _ & Ho & _ & Hf & _).
  cbv zeta in Ho, Hf.
  destruct (Qeq_bool _ 0); simpl; [split; assumption |].
  match goal with
  | |- context [Qlt_bool ?a ?b] => destruct (Qlt_bool a b)
  end; simpl; split; assumption.
Qed.

Lemma open_step_keeps_fees (now : timestamp) (own : GenericPositionSide)
      (fill_price remaining : Q) (current : option DataPosition)
      (s : PortfolioTracker) :
  total_fees_paid (snd (open_step now own fill_price remaining current s))
  = total_fees_paid s
  /\ open_orders (snd (open_step now own fill_price remaining current s))
     = open_orders s.
Proof.
  unfold open_step.
  destruct (Qlt_bool 0 remaining); [| split; reflexivity].
  destruct current as [cur |].
  - destruct (pydiv _ _); simpl; [| split; reflexivity].
    match goal with
    | |- context [update_position ?n ?sd ?sz ?e ?p ?st] =>
        pose proof (Fill.update_position_frame n sd sz e p st)
          as (_ & Ho & _ & _ & Hf & _)
    end.
    split; assumption.
  - simpl.
    match goal with
    | |- context [update_position ?n ?sd ?sz ?e ?p ?st] =>
        pose proof (Fill.update_position_frame n sd sz e p st)
          as (_ & Ho & _ & _ & Hf & _)
    end.
    split; assumption.
Qed.

(** [_process_fill] neither charges fees nor touches the resting orders. *)
Lemma process_fill_keeps_fees (now1 now2 : timestamp) (side : GenericOrderSide)
      (fill_price fill_size : Q) (is_maker : bool) (s : PortfolioTracker) :
  let s' := snd (_process_fill now1 now2 side fill_price fill_size is_maker s) in
  total_fees_paid s' = total_fees_paid s /\ open_orders s' = open_orders s.
Proof.
  cbv zeta. rewrite Fill.process_fill_unfold. cbv zeta.
  destruct (get_position (opposite_side_of side) s) as [opposite |].
  - match goal with
    | |- context [record_trade ?b ?st] =>
        pose proof (record_trade_keeps_fees b st) as [Hf Ho];
        destruct (record_trade b st) as [[[] | e] s2]
    end; simpl in Hf, Ho.
    + match goal with
      | |- context [open_step ?n ?o ?fp ?r ?c s2] =>
          pose proof (open_step_keeps_fees n o fp r c s2) as [Hf' Ho']
      end.
      rewrite Hf', Ho', Hf, Ho.
      match goal with
      | |- context [update_position ?n ?sd ?sz ?e ?p s] =>
          pose proof (Fill.update_position_frame n sd sz e p s)
            as (_ & Ho'' & _ & _ & Hf'' & _)
      end.
      split; assumption.
    + simpl. rewrite Hf, Ho.
      match goal with
      | |- context [update_position ?n ?sd ?sz ?e ?p s] =>
          pose proof (Fill.update_position_frame n sd sz e p s)
            as (_ & Ho'' & _ & _ & Hf'' & _)
      end.
      split; assumption.
  - apply open_step_keeps_fees.
Qed.

Lemma get_order_remove_same (id : string) (s : PortfolioTracker) :
  get_order id (snd (remove_order id s)) = None.
Proof.
  unfold get_order, remove_order, dict_pop. simpl.
  apply (dict_get_del_same String.eqb).
Qed.

End Latency.

(** C4, as the code has it.  A market order sleeps with the ledger
    untouched: it ends without sleeping only when it is rejected (or the
    margin check raises), with the ledger as it was, and otherwise its one
    sleep comes before the fee and before the position update, which both
    happen on resumption without a further suspension.  A fill of the
    monitoring loop removes the order and books the fee before it sleeps;
    positions, balance changes other than the fee and trade statistics wait for
    the position update that follows the sleep. *)
Theorem latency_precedes_position_update :
  (forall fill_delay_ms ent side size is_reduce s md,
      let t := PaperTradingExchange.open_market_order
                 fill_delay_ms ent side size is_reduce s md in
      ledger_at_first_yield t = s
      /\ match t with
         | Done r _ => r = Ok None \/ exists e, r = Raise e
         | Sleep d _ k =>
             d = PaperTradingExchange.fill_delay_seconds fill_delay_ms ent
             /\ forall s' md',
                 let fill :=
                   OrderSimulator.simulate_market_order_fill
                     side size
                     (match first_price (buy_orders_list md) with
                      | Some p => p | None => 0 end)
                     (match first_price (sell_orders_list md) with
                      | Some p => p | None => 0 end)
                     (buy_orders_list md') (sell_orders_list md') in
                 exists r s'',
                   k s' md' = Done r s''
                   /\ total_fees_paid s''
                      = total_fees_paid s'
                        + OrderSimulator.calculate_fee (fst fill) (snd fill) false
         end)
  /\ (forall fill_delay_ms ent i order fill_price fill_size is_maker rest s,
         let t := PaperTradingExchange.process_fills
                    fill_delay_ms ent i
                    ((order, (fill_price, fill_size, is_maker)) :: rest) s in
         let fee := OrderSimulator.calculate_fee fill_price fill_size is_maker in
         let s1 := ledger_at_first_yield t in
         Portfolio.get_order (order_id order) s1 = None
         /\ balance s1 = balance s - fee
         /\ total_fees_paid s1 = total_fees_paid s + fee
         /\ open_positions s1 = open_positions s
         /\ total_trades s1 = total_trades s
         /\ winning_trades s1 = winning_trades s
         /\ peak_balance s1 = peak_balance s
         /\ max_drawdown s1 = max_drawdown s
         /\ exists k,
             t = Sleep (PaperTradingExchange.fill_delay_seconds
                          fill_delay_ms (ent i)) s1 k
             /\ forall s' md',
                 k s' md'
                 = match PaperTradingExchange._process_fill
                           (now_close (ent i)) (now_open (ent i))
                           (order_side order) fill_price fill_size is_maker s' with
                   | (Ok _, s'') =>
                       PaperTradingExchange.process_fills
                         fill_delay_ms ent (S i) rest s''
                   | (Raise e, s'') => Done (Raise e) s''
                   end).
Proof.
  split.
  - intros fill_delay_ms ent side size is_reduce s md t. subst t.
    unfold PaperTradingExchange.open_market_order.
    destruct (first_price (buy_orders_list md)) as [bid |];
      [| split; [reflexivity | left; reflexivity]].
    destruct (first_price (sell_orders_list md)) as [ask |];
      [| split; [reflexivity | left; reflexivity]].
    destruct (Qeq_bool bid 0 || Qeq_bool ask 0);
      [split; [reflexivity | left; reflexivity] |].
    match goal with
    | |- context [if negb is_reduce then ?c else Ok true] =>
        destruct (if negb is_reduce then c else Ok true) as [[|] | e]
    end.
    + split; [reflexivity |]. split; [reflexivity |].
      intros s' md'.
      destruct (OrderSimulator.simulate_market_order_fill
                  side size bid ask (buy_orders_list md') (sell_orders_list md'))
        as [fill_price filled].
      cbn [fst snd]. unfold bind at 1. unfold modify at 1.
      pose proof (Latency.process_fill_keeps_fees
                    (now_close ent) (now_open ent) side fill_price filled false
                    (Portfolio.apply_fee
                       (OrderSimulator.calculate_fee fill_price filled false) s'))
        as [Hf _].
      cbv zeta in Hf.
      destruct (PaperTradingExchange._process_fill _ _ _ _ _ _ _)
        as [[[] | e] s'']; simpl in Hf;
        eexists; eexists; (split; [reflexivity | exact Hf]).
    + split; [reflexivity | left; reflexivity].
    + split; [reflexivity | right; eexists; reflexivity].
  - intros fill_delay_ms ent i order fill_price fill_size is_maker rest s t fee s1.
    subst t s1 fee. cbn [PaperTradingExchange.process_fills ledger_at_first_yield].
    split; [apply Latency.get_order_remove_same |].
    repeat (split; [reflexivity |]).
    eexists; split; [reflexivity |]. intros s' md'. reflexivity.
Qed.

(** C4, as the claim words it, fails for the monitoring loop: on the sample
    data the loop's first suspension is the latency of a fill (0.1 s here),
    and the ledger it leaves behind while asleep has already lost the order
    and been charged the fee. *)
Lemma monitoring_fill_mutates_before_latency :
  (exists k,
      sample_monitor_turn
      = Sleep (PaperTradingExchange.fill_delay_seconds 100 (no_jitter 0%nat))
              (ledger_at_first_yield sample_monitor_turn) k)
  /\ ledger_at_first_yield sample_monitor_turn <> sample_ledger
  /\ Portfolio.get_order "paper_1" sample_ledger = Some sample_order
  /\ Portfolio.get_order "paper_1" (ledger_at_first_yield sample_monitor_turn) = None
  /\ balance sample_ledger == 1000
  /\ balance (ledger_at_first_yield sample_monitor_turn) == 999.505
  /\ total_fees_paid (ledger_at_first_yield sample_monitor_turn) == 0.495.
Proof.
  split; [eexists; reflexivity |].
  split.
  - intro H. apply (f_equal open_orders) in H. vm_compute in H. discriminate.
  - repeat split; vm_compute; reflexivity.
Qed.

(** ** Ledgers in good standing

    The two conditions under which the position-update procedure is
    analysed hold of a fresh ledger with a positive initial balance and
    are kept by every fill, so they hold whenever the procedure runs. *)

Module Invariant.
Import OrderSimulator Portfolio PaperTradingExchange.

Lemma init_wf (initial : Q) (leverage : Z) :
  0 < initial -> ledger_wf (init initial leverage).
Proof.
  intro H. split; [exact H |]. intros side p Hp. destruct side; discriminate.
Qed.

Lemma open_step_keeps_peak (now : timestamp) (own : GenericPositionSide)
      (fill_price remaining : Q) (current : option DataPosition)
      (s : PortfolioTracker) :
  peak_balance (snd (open_step now own fill_price remaining current s))
  = peak_balance s
  /\ max_drawdown (snd (open_step now own fill_price remaining current s))
     = max_drawdown s.
Proof.
  unfold open_step.
  destruct (Qlt_bool 0 remaining); [| split; reflexivity].
  destruct current as [cur |].
  - destruct (pydiv _ _); simpl; [| split; reflexivity].
    match goal with
    | |- context [update_position ?n ?sd ?sz ?e ?p ?st] =>
        pose proof (Fill.update_position_frame n sd sz e p st)
          as (_ & _ & _ & _ & _ & Hpk & Hdd)
    end.
    split; assumption.
  - simpl.
    match goal with
    | |- context [update_position ?n ?sd ?sz ?e ?p ?st] =>
        pose proof (Fill.update_position_frame n sd sz e p st)
          as (_ & _ & _ & _ & _ & Hpk & Hdd)
    end.
    split; assumption.
Qed.

(** What the opening step leaves on the own side is positive. *)
Lemma opens_or_adds_positive (now : timestamp) (own : GenericPositionSide)
      (fill_price remaining : Q) (s s' : PortfolioTracker) :
  (forall p, get_position own s = Some p -> 0 < pos_size p) ->
  opens_or_adds now own fill_price remaining s s' ->
  forall p, get_position own s' = Some p -> 0 < pos_size p.
Proof.
  intros Hold [Hnone Hsome] p Hp.
  destruct (Qlt_le_dec 0 remaining) as [Hpos | Hnon].
  - specialize (Hsome Hpos).
    destruct (get_position own s) as [old |].
    + destruct Hsome as (q & Hq & _ & Hsz & _).
      rewrite Hq in Hp. injection Hp as <-.
      specialize (Hold old eq_refl). lra.
    + rewrite Hsome in Hp. injection Hp as <-. exact Hpos.
  - rewrite (Hnone Hnon) in Hp. auto.
Qed.

Lemma process_fill_preserves_wf (now1 now2 : timestamp) (side : GenericOrderSide)
        (fill_price fill_size : Q) (is_maker : bool) (s : PortfolioTracker) :
  ledger_wf s ->
  ledger_wf (snd (_process_fill now1 now2 side fill_price fill_size is_maker s)).
Proof.
  intros [Hpeak Hpos].
  set (own := position_side_of side). set (opp := opposite_side_of side).
  assert (Hne : opp <> own) by apply opposite_is_not_own.
  assert (Hsides : forall sd, sd = own \/ sd = opp)
    by (intro sd; subst own opp; destruct side, sd; auto).
  rewrite Fill.process_fill_unfold. cbv zeta. fold own opp.
  destruct (get_position opp s) as [opposite |] eqn:Hopp.
  - set (close_size := Qmin fill_size (pos_size opposite)).
    set (realized_pnl :=
           calculate_realized_pnl (pos_entry_price opposite) fill_price
                                  close_size (position_side_eqb opp LONG)).
    set (new_size := pos_size opposite - close_size).
    set (closed := update_position now1 opp new_size
                                   (pos_entry_price opposite) realized_pnl s).
    pose proof (Fill.update_position_frame
                  now1 opp new_size (pos_entry_price opposite) realized_pnl s)
      as (_ & _ & _ & _ & _ & Hpk & _).
    cbv zeta in Hpk. fold closed in Hpk.
    assert (Hown_closed : get_position own closed = get_position own s)
      by (apply Fill.get_position_update_other; auto).
    assert (Hopp_closed :
              forall p, get_position opp closed = Some p -> 0 < pos_size p).
    { intros p. subst closed. rewrite Fill.get_position_update_same.
      destruct (Qeq_bool new_size 0) eqn:Hz; [discriminate |].
      intro Hp. injection Hp as <-. simpl.
      apply Qeq_bool_false_iff in Hz. subst new_size close_size.
      specialize (Hpos opp opposite Hopp).
      destruct (Qmin_cases fill_size (pos_size opposite)) as [[Hle E] | [Hlt E]];
        rewrite E in *; lra. }
    destruct (Fill.record_trade_ok (Qlt_bool 0 realized_pnl) closed)
      as (s2 & Hrec & _ & Hp2 & _); [rewrite Hpk; exact Hpeak |].
    pose proof (Drawdown.record_trade_monotone (Qlt_bool 0 realized_pnl) closed)
      as [Hpk2 _].
    cbv zeta in Hpk2. rewrite Hrec in Hpk2 |- *. cbn [snd] in Hpk2.
    assert (Hget2 : forall sd, get_position sd s2 = get_position sd closed)
      by (intro sd; unfold get_position; now rewrite Hp2).
    assert (Hown2 : get_position own s = get_position own s2)
      by (now rewrite Hget2, Hown_closed).
    rewrite Hown2.
    pose proof (open_step_keeps_peak
                  now2 own fill_price (fill_size - close_size)
                  (get_position own s2) s2) as [Hpk' _].
    destruct (Fill.open_step_spec now2 own fill_price (fill_size - close_size) s2)
      as (s' & Hstep & Hopen & _ & Hoth & _).
    { intros cur Hc. rewrite <- Hown2 in Hc. apply Qlt_le_weak. eauto. }
    rewrite Hstep in Hpk' |- *. cbn [snd] in *.
    split; [rewrite Hpk'; rewrite Hpk in Hpk2; lra |].
    intros sd p Hp. destruct (Hsides sd) as [-> | ->].
    + eapply opens_or_adds_positive; [| exact Hopen | exact Hp].
      intros q Hq. rewrite <- Hown2 in Hq. eauto.
    + rewrite (Hoth opp Hne), Hget2 in Hp. auto.
  - pose proof (open_step_keeps_peak
                  now2 own fill_price fill_size (get_position own s) s) as [Hpk' _].
    destruct (Fill.open_step_spec now2 own fill_price fill_size s)
      as (s' & Hstep & Hopen & _ & Hoth & _).
    { intros cur Hc. apply Qlt_le_weak. eauto. }
    rewrite Hstep in Hpk' |- *. cbn [snd] in *.
    split; [rewrite Hpk'; exact Hpeak |].
    intros sd p Hp. destruct (Hsides sd) as [-> | ->].
    + eapply opens_or_adds_positive; [| exact Hopen | exact Hp]. eauto.
    + rewrite (Hoth opp Hne), Hopp in Hp. discriminate.
Qed.

(** Fees and order bookkeeping touch neither the peak nor the positions. *)
Lemma apply_fee_preserves_wf (fee : Q) (s : PortfolioTracker) :
  ledger_wf s -> ledger_wf (apply_fee fee s).
Proof. intros [Hpeak Hpos]. split; [exact Hpeak | exact Hpos]. Qed.

Lemma set_open_orders_preserves_wf (o : list (string * DataOrder))
      (s : PortfolioTracker) :
  ledger_wf s -> ledger_wf (set_open_orders o s).
Proof. intros [Hpeak Hpos]. split; [exact Hpeak | exact Hpos]. Qed.

(** A ledger in good standing meets the conditions of the analysis of
    [_process_fill]. *)
Lemma wf_own_side_nonneg (side : GenericPositionSide) (s : PortfolioTracker) :
  ledger_wf s ->
  0 < peak_balance s
  /\ forall cur, get_position side s = Some cur -> 0 <= pos_size cur.
Proof.
  intros [Hpeak Hpos]. split; [exact Hpeak |].
  intros cur Hc. apply Qlt_le_weak. eauto.
Qed.

End Invariant.

(** ** Peak balance and drawdown over sequences of operations *)

(** C6.  Over any sequence of ledger operations the peak balance and the
    maximum drawdown never decrease; every operation other than
    [record_trade] leaves both as they are, and so does a fill that closes
    nothing; and [record_trade] first sets the peak to [max(peak, balance)]
    and then the maximum drawdown to
    [max(max_drawdown, (peak - balance) / peak)], with the balance of the
    moment (the division requires the new peak to be non-zero). *)
Theorem peak_and_drawdown_monotone :
  (forall ops s,
      peak_balance s <= peak_balance (run_ops ops s)
      /\ max_drawdown s <= max_drawdown (run_ops ops s))
  /\ (forall op s,
         is_record_trade op = false ->
         peak_balance (run_op op s) = peak_balance s
         /\ max_drawdown (run_op op s) = max_drawdown s)
  /\ (forall now1 now2 side fill_price fill_size is_maker s,
         Portfolio.get_position (PaperTradingExchange.opposite_side_of side) s
         = None ->
         let s' := snd (PaperTradingExchange._process_fill
                          now1 now2 side fill_price fill_size is_maker s) in
         peak_balance s' = peak_balance s /\ max_drawdown s' = max_drawdown s)
  /\ (forall profitable s,
         let peak := Qmax (peak_balance s) (balance s) in
         ~ peak == 0 ->
         exists s',
           Portfolio.record_trade profitable s = (Ok tt, s')
           /\ balance s' = balance s
           /\ peak_balance s' = peak
           /\ max_drawdown s'
              = Qmax (max_drawdown s) ((peak - balance s) / peak)).
Proof.
  split; [| split; [| split]].
  - intros ops. induction ops as [| op ops IH]; intro s; simpl.
    + split; apply Qle_refl.
    + destruct (Drawdown.run_op_monotone op s) as [Hp Hd].
      destruct (IH (run_op op s)) as [Hp' Hd'].
      split; eapply Qle_trans; eauto.
  - exact Drawdown.other_ops_keep_peak_and_drawdown.
  - intros now1 now2 side fill_price fill_size is_maker s Hopp. cbv zeta.
    rewrite Fill.process_fill_unfold. cbv zeta. rewrite Hopp.
    apply Invariant.open_step_keeps_peak.
  - intros profitable s peak Hpeak.
    rewrite Drawdown.record_trade_unfold. cbv zeta.
    pose proof (Drawdown.before_division_fields profitable s) as (Hp & Hb & Hd & _).
    cbv zeta in Hp, Hb, Hd. rewrite Hp, Hb, Hd. fold peak.
    apply Qeq_bool_false_iff in Hpeak. rewrite Hpeak.
    eexists; split; [reflexivity |].
    rewrite <- (pymax_Qmax (max_drawdown s)). unfold pymax.
    destruct (Qlt_bool (max_drawdown s) ((peak - balance s) / peak));
      simpl; rewrite ?Hp, ?Hb, ?Hd; repeat split; reflexivity.
Qed.

(** ** The unit tests of the repository, replayed on the embedding *)

Module UnitTests.
Import OrderSimulator Portfolio PaperTradingExchange.

Example test_apply_fee :
  let p1 := apply_fee 5 (init 1000 5) in
  let p2 := apply_fee (-2) p1 in
  balance p1 == 995 /\ total_fees_paid p1 == 5
  /\ balance p2 == 997 /\ total_fees_paid p2 == 3.
Proof. repeat split; vm_compute; reflexivity. Qed.

Example test_update_position :
  let p1 := update_position 0%Z LONG 10 100 0 (init 1000 5) in
  get_position LONG p1 = Some (mkPosition LONG 10 100 0%Z)
  /\ get_position LONG (update_position 1%Z LONG 0 100 0 p1) = None.
Proof. split; reflexivity. Qed.

Example test_unrealized_pnl :
  let long := update_position 0%Z LONG 10 100 0 (init 1000 5) in
  let short := update_position 0%Z SHORT 10 100 0 (init 1000 5) in
  get_unrealized_pnl 110 long == 100
  /\ get_unrealized_pnl 95 long == -50
  /\ get_unrealized_pnl 95 short == 50
  /\ get_unrealized_pnl 110 short == -100
  /\ get_equity 110 long == 1100.
Proof. repeat split; vm_compute; reflexivity. Qed.

Example test_can_open_position :
  can_open_position 10 100 100 (init 1000 5) = Ok true
  /\ can_open_position 100 100 100 (init 1000 5) = Ok false
  /\ can_open_position 10 100 100 (init 1000 0) = Raise ZeroDivisionError.
Proof. repeat split; reflexivity. Qed.

Example test_statistics :
  let p := run_ops [RecordTrade true; RecordTrade true; RecordTrade false]
                   (set_balance 1050 (init 1000 5)) in
  total_trades p = 3%Z /\ winning_trades p = 2%Z
  /\ peak_balance p == 1050 /\ max_drawdown p == 0.
Proof. repeat split; vm_compute; reflexivity. Qed.

Example test_calculate_realized_pnl :
  calculate_realized_pnl 100 110 10 true == 100
  /\ calculate_realized_pnl 100 95 10 false == 50.
Proof. split; reflexivity. Qed.

Example test_check_limit_order_fill_buy :
  check_limit_order_fill sample_order 100 101 [(100, 10)] [(101, 10)] = None
  /\ check_limit_order_fill sample_order 98 99 [(98, 10)] [(99, 15)]
     = Some (99, 10, false).
Proof. split; reflexivity. Qed.

Example test_check_limit_order_fill_sell :
  let order := mkOrder "test_1" SELL 10 101 0%Z in
  check_limit_order_fill order 99 100 [(99, 10)] [(100, 10)] = None
  /\ check_limit_order_fill order 101 102 [(101, 15)] [(102, 10)]
     = Some (101, 10, false).
Proof. split; reflexivity. Qed.

Example test_simulate_market_order_fill :
  let buy := simulate_market_order_fill BUY 10 99 100 [(99, 20)] [(100, 20)] in
  let sell := simulate_market_order_fill SELL 10 99 100 [(99, 20)] [(100, 20)] in
  fst buy == 100 /\ snd buy == 10 /\ fst sell == 99 /\ snd sell == 10.
Proof. repeat split; vm_compute; reflexivity. Qed.

Example test_simulate_market_order_slippage :
  let fill := simulate_market_order_fill BUY 30 99 100 [(99, 10)] sample_asks in
  snd fill == 30 /\ fst fill == 100.5 /\ 100 < fst fill < 101.
Proof. repeat split; vm_compute; reflexivity. Qed.

(** A book too thin for the order: 10 at 100 then the remaining 5 at
    100 * 1.02. *)
Example thin_book_remainder :
  let fill := simulate_market_order_fill BUY 15 99 100 [(99, 10)] [(100, 10)] in
  snd fill == 15 /\ fst fill == (10 * 100 + 5 * 102) / 15.
Proof. split; vm_compute; reflexivity. Qed.

(** The specification's averaging example: a long of 10 at 100, then 10
    more at 120, is a long of 20 at 110. *)
Example average_entry_on_add :
  let s1 := snd (_process_fill 0%Z 1%Z BUY 100 10 false (init 1000 5)) in
  let s2 := snd (_process_fill 2%Z 3%Z BUY 120 10 false s1) in
  exists p,
    get_position LONG s2 = Some p /\ pos_size p == 20 /\ pos_entry_price p == 110.
Proof. eexists; split; [reflexivity | split; vm_compute; reflexivity]. Qed.

(** The sample turn of the monitoring loop, left undisturbed: the resting
    order is gone, the taker fee of 0.495 is paid and a long of 10 at 99
    stands. *)
Example monitor_turn_undisturbed :
  let result := run_alone sample_monitor_turn sample_market in
  fst result = Ok tt
  /\ open_orders (snd result) = []
  /\ get_position LONG (snd result) = Some (mkPosition LONG 10 99 0%Z)
  /\ balance (snd result) == 999.505.
Proof. repeat split; vm_compute; reflexivity. Qed.

End UnitTests.

(** * The theorems at work on the sample data *)

Ltac by_computation :=
  vm_compute;
  first [ reflexivity | discriminate | (intro; discriminate) ].

(** A BUY fill of 8 at 95 against the short of 5 entered at 100 realizes
    25, leaves no short and opens a long. *)
Lemma process_fill_closes_then_opens_witness :
  exists s',
    PaperTradingExchange._process_fill 1%Z 2%Z BUY 95 8 false sample_short_ledger
    = (Ok tt, s')
    /\ balance s' == 1025
    /\ Portfolio.get_position SHORT s' = None
    /\ total_trades s' = 1%Z.
Proof.
  assert (Hpeak : 0 < peak_balance sample_short_ledger) by by_computation.
  assert (Hown : forall cur,
             Portfolio.get_position
               (PaperTradingExchange.position_side_of BUY) sample_short_ledger
             = Some cur -> 0 <= pos_size cur)
    by (intros cur H; vm_compute in H; discriminate).
  destruct (process_fill_closes_then_opens
              1%Z 2%Z BUY 95 8 false sample_short_ledger Hpeak Hown)
    as (s' & Hrun & Hclose & _).
  exists s'. split; [exact Hrun |].
  destruct (Hclose (mkPosition SHORT 5 100 0%Z) eq_refl)
    as (_ & Hbal & _ & Htrades & _ & _ & _ & Hlarger).
  split; [rewrite Hbal; by_computation |].
  split; [apply Hlarger; by_computation | exact Htrades].
Defined.

(** The resting BUY at 99 fills in full, as taker, once the ask is at 99. *)
Lemma check_limit_order_fill_spec_witness :
  OrderSimulator.check_limit_order_fill sample_order 98 99 [(98, 10)] [(99, 15)]
  = Some (99, 10, false).
Proof.
  pose proof (check_limit_order_fill_spec sample_order 98 99 [(98, 10)] [(99, 15)])
    as H.
  cbv zeta in H. destruct H as [Hbuy _].
  destruct (Hbuy eq_refl) as (_ & _ & Hfill).
  destruct Hfill as (fill_price & is_maker & Heq & Hmaker & _ & Htaker);
    [by_computation | by_computation |].
  rewrite Heq.
  destruct is_maker.
  - destruct Hmaker as [Habs _]. specialize (Habs eq_refl).
    vm_compute in Habs. discriminate.
  - rewrite (Htaker eq_refl). reflexivity.
Defined.

(** A fresh ledger of 1000 at leverage 5 can carry 10 at 100. *)
Lemma can_open_position_iff_margin_witness :
  Portfolio.can_open_position 10 100 100 (Portfolio.init 1000 5) = Ok true.
Proof.
  assert (Hlev : max_leverage (Portfolio.init 1000 5) <> 0%Z) by by_computation.
  pose proof (can_open_position_iff_margin (Portfolio.init 1000 5) 10 100 100 Hlev)
    as H.
  cbv zeta in H. destruct H as (b & Hb & Hiff).
  rewrite Hb. f_equal. apply Hiff. by_computation.
Defined.

(** A trade closed at balance 1050 lifts the peak from 1000 to 1050. *)
Lemma peak_and_drawdown_monotone_witness :
  exists s',
    Portfolio.record_trade true (set_balance 1050 (Portfolio.init 1000 5))
    = (Ok tt, s')
    /\ peak_balance s' = Qmax 1000 1050.
Proof.
  destruct peak_and_drawdown_monotone as (_ & _ & _ & Hrecord).
  destruct (Hrecord true (set_balance 1050 (Portfolio.init 1000 5)))
    as (s' & Hrun & _ & Hpeak & _); [by_computation |].
  exists s'. split; [exact Hrun | exact Hpeak].
Defined.

(** Modifying the resting order replaces it; an unknown id changes nothing. *)
Lemma modify_limit_order_cancel_replace_witness :
  fst (PaperTradingExchange.modify_limit_order
         7%Z "paper_1" SELL 3 101 false sample_ledger)
  = Some (mkOrderDict "paper_1" SELL 3 101)
  /\ PaperTradingExchange.modify_limit_order
       7%Z "paper_2" SELL 3 101 false sample_ledger
     = (None, sample_ledger).
Proof.
  split.
  - pose proof (modify_limit_order_cancel_replace
                  7%Z "paper_1" SELL 3 101 false sample_ledger) as H.
    cbv zeta in H. destruct H as [Hpresent _].
    destruct Hpresent as (Hret & _); [by_computation | exact Hret].
  - pose proof (modify_limit_order_cancel_replace
                  7%Z "paper_2" SELL 3 101 false sample_ledger) as H.
    cbv zeta in H. destruct H as [_ Habsent].
    apply Habsent. reflexivity.
Defined.

(** An order of 100 at 100 needs a margin of 2000 against 1000 available:
    placing it is refused, modifying the resting order into it is not. *)
Lemma modify_limit_order_has_no_margin_check_witness :
  Portfolio.can_open_position
    100 100 (PaperTradingExchange.mark_price_or sample_market 100) sample_ledger
  = Ok false
  /\ fst (PaperTradingExchange.modify_limit_order
            7%Z "paper_1" BUY 100 100 false sample_ledger)
     = Some (mkOrderDict "paper_1" BUY 100 100)
  /\ PaperTradingExchange.open_limit_order
       7%Z "0123456789abcdef" sample_market BUY 100 100 false sample_ledger
     = (Ok None, sample_ledger).
Proof.
  assert (Hmargin :
            Portfolio.can_open_position
              100 100 (PaperTradingExchange.mark_price_or sample_market 100)
              sample_ledger = Ok false) by reflexivity.
  pose proof (modify_limit_order_has_no_margin_check
                7%Z "0123456789abcdef" "paper_1" sample_market BUY 100 100
                sample_ledger) as H.
  cbv zeta in H. destruct H as (Hmodify & Hrefused & _).
  split; [exact Hmargin |].
  split; [| exact (Hrefused Hmargin)].
  apply (Hmodify ltac:(by_computation) false).
Defined.

(** * Further properties of the code *)

(** ** Fill simulator *)

(** X1.  For a jitter drawn from [-20, 20], [simulate_fill_delay] sleeps at
    least 10 ms (0.01 s), never less than [fill_delay_ms - 20] and never more
    than [max(fill_delay_ms + 20, 10)]; from a base of 30 ms on the floor of
    10 ms is never hit and the delay is exactly base plus jitter. *)
Theorem simulate_fill_delay_bounds (fill_delay_ms : Z) (ent : entropy) :
  (-20 <= jitter ent <= 20)%Z ->
  let d := OrderSimulator.simulate_fill_delay fill_delay_ms (jitter ent) in
  (10 <= d)%Z
  /\ (fill_delay_ms - 20 <= d)%Z
  /\ (d <= Z.max (fill_delay_ms + 20) 10)%Z
  /\ ((30 <= fill_delay_ms)%Z -> d = (fill_delay_ms + jitter ent)%Z)
  /\ 0.01 <= PaperTradingExchange.fill_delay_seconds fill_delay_ms ent.
Proof.
  intros Hj d. subst d.
  unfold PaperTradingExchange.fill_delay_seconds, OrderSimulator.simulate_fill_delay.
  repeat split; try lia.
  apply Qle_shift_div_l; [reflexivity |].
  assert (H : (10 <= Z.max (fill_delay_ms + jitter ent) 10)%Z) by lia.
  rewrite Zle_Qle in H.
  eapply Qle_trans; [| exact H]. vm_compute. discriminate.
Qed.

Lemma simulate_fill_delay_bounds_witness :
  (80 <= OrderSimulator.simulate_fill_delay 100 (-20) <= 120)%Z.
Proof.
  assert (Hj : (-20 <= jitter (mkEntropy (-20)%Z 0%Z 0%Z) <= 20)%Z) by (simpl; lia).
  pose proof (simulate_fill_delay_bounds 100%Z (mkEntropy (-20)%Z 0%Z 0%Z) Hj) as H.
  cbv zeta in H. destruct H as (_ & Hlo & Hhi & _).
  simpl in Hlo, Hhi |- *. lia.
Defined.

(** X2.  A short realizes the opposite of what a long realizes on the same
    prices and size; nothing is realized when exit equals entry; and with a
    positive size a long gains exactly when the exit is above the entry, a
    short exactly when it is below. *)
Theorem realized_pnl_long_short (entry exit size : Q) :
  OrderSimulator.calculate_realized_pnl entry exit size false
  == - OrderSimulator.calculate_realized_pnl entry exit size true
  /\ (forall is_long,
         OrderSimulator.calculate_realized_pnl entry entry size is_long == 0)
  /\ (0 < size ->
      (0 < OrderSimulator.calculate_realized_pnl entry exit size true
       <-> entry < exit)
      /\ (0 < OrderSimulator.calculate_realized_pnl entry exit size false
          <-> exit < entry)).
Proof.
  unfold OrderSimulator.calculate_realized_pnl.
  split; [ring |]. split; [intros [|]; ring |].
  intro Hsize. split; split; intro H.
  - destruct (Qlt_le_dec entry exit) as [|Hle]; [assumption |].
    assert ((exit - entry) * size <= 0) by nra. lra.
  - nra.
  - destruct (Qlt_le_dec exit entry) as [|Hle]; [assumption |].
    assert ((entry - exit) * size <= 0) by nra. lra.
  - nra.
Qed.

Lemma realized_pnl_long_short_witness :
  0 < OrderSimulator.calculate_realized_pnl 100 110 10 true.
Proof.
  assert (Hsize : 0 < 10) by by_computation.
  destruct (realized_pnl_long_short 100 110 10) as (_ & _ & H).
  destruct (H Hsize) as [[_ Hlong] _]. apply Hlong. by_computation.
Defined.

(** X3.  Whatever [check_limit_order_fill] returns as a fill has a size that
    is positive, at most the order's size and at most the liquidity at or
    better than the limit, and a price that is never worse than the limit:
    at most the limit for a BUY, at least the limit for a SELL. *)
Theorem limit_fill_within_bounds
        (order : DataOrder) (bid ask : Q) (buys sells : book_side)
        (fill_price fill_size : Q) (is_maker : bool) :
  OrderSimulator.check_limit_order_fill order bid ask buys sells
  = Some (fill_price, fill_size, is_maker) ->
  0 < fill_size
  /\ fill_size <= order_size order
  /\ match order_side order with
     | BUY =>
         ask <= order_price order
         /\ fill_price <= order_price order
         /\ fill_size <= liquidity_at_or_better true (order_price order) sells
     | SELL =>
         order_price order <= bid
         /\ order_price order <= fill_price
         /\ fill_size <= liquidity_at_or_better false (order_price order) buys
     end.
Proof.
  unfold OrderSimulator.check_limit_order_fill.
  destruct (order_side order); cbv zeta;
    rewrite LimitFill.capped_size, LimitFill.get_available_liquidity_spec.
  - destruct (Qle_bool ask (order_price order)) eqn:Hcross; [| discriminate].
    apply Qle_bool_iff in Hcross.
    match goal with
    | |- context [Qlt_bool 0 ?x] => destruct (Qlt_bool 0 x) eqn:Hpos
    end; [| discriminate].
    apply Qlt_bool_iff in Hpos.
    intro E. injection E as <- <- <-.
    split; [exact Hpos |].
    split; [apply Q.le_min_l |].
    split; [exact Hcross |].
    split; [| apply Q.le_min_r].
    destruct (Qlt_bool (order_price order) bid); simpl;
      [apply Qle_refl | rewrite pymin_Qmin; apply Q.le_min_l].
  - destruct (Qle_bool (order_price order) bid) eqn:Hcross; [| discriminate].
    apply Qle_bool_iff in Hcross.
    match goal with
    | |- context [Qlt_bool 0 ?x] => destruct (Qlt_bool 0 x) eqn:Hpos
    end; [| discriminate].
    apply Qlt_bool_iff in Hpos.
    intro E. injection E as <- <- <-.
    split; [exact Hpos |].
    split; [apply Q.le_min_l |].
    split; [exact Hcross |].
    split; [| apply Q.le_min_r].
    destruct (Qlt_bool ask (order_price order)); simpl;
      [apply Qle_refl | rewrite pymax_Qmax; apply Q.le_max_l].
Qed.

Lemma limit_fill_within_bounds_witness :
  OrderSimulator.check_limit_order_fill sample_order 98 99 [(98, 10)] [(99, 15)]
  = Some (99, 10, false)
  /\ 0 < 10 /\ 10 <= order_size sample_order.
Proof.
  assert (Hfill :
            OrderSimulator.check_limit_order_fill
              sample_order 98 99 [(98, 10)] [(99, 15)] = Some (99, 10, false))
    by reflexivity.
  destruct (limit_fill_within_bounds
              sample_order 98 99 [(98, 10)] [(99, 15)] 99 10 false Hfill)
    as (Hpos & Hle & _).
  split; [exact Hfill |]. split; [exact Hpos | exact Hle].
Defined.

(** X4.  On a book that is not crossed ([bid <= ask]) every fill returned by
    [check_limit_order_fill] is a taker fill, a BUY at the best ask and a
    SELL at the best bid: the maker flag, and with it the maker rebate, is
    only reached when the bid is above the ask. *)
Theorem limit_fill_is_taker_unless_crossed
        (order : DataOrder) (bid ask : Q) (buys sells : book_side)
        (fill_price fill_size : Q) (is_maker : bool) :
  bid <= ask ->
  OrderSimulator.check_limit_order_fill order bid ask buys sells
  = Some (fill_price, fill_size, is_maker) ->
  is_maker = false
  /\ match order_side order with
     | BUY => fill_price == ask
     | SELL => fill_price == bid
     end.
Proof.
  intro Huncrossed. unfold OrderSimulator.check_limit_order_fill.
  destruct (order_side order); cbv zeta.
  - destruct (Qle_bool ask (order_price order)) eqn:Hcross; [| discriminate].
    apply Qle_bool_iff in Hcross.
    match goal with
    | |- context [Qlt_bool 0 ?x] => destruct (Qlt_bool 0 x)
    end; [| discriminate].
    assert (Htaker : Qlt_bool (order_price order) bid = false)
      by (apply Qlt_bool_false_iff; lra).
    rewrite Htaker. simpl. intro E. injection E as <- _ <-.
    split; [reflexivity |]. rewrite pymin_Qmin.
    destruct (Qmin_cases (order_price order) ask) as [[H ->] | [H ->]]; lra.
  - destruct (Qle_bool (order_price order) bid) eqn:Hcross; [| discriminate].
    apply Qle_bool_iff in Hcross.
    match goal with
    | |- context [Qlt_bool 0 ?x] => destruct (Qlt_bool 0 x)
    end; [| discriminate].
    assert (Htaker : Qlt_bool ask (order_price order) = false)
      by (apply Qlt_bool_false_iff; lra).
    rewrite Htaker. simpl. intro E. injection E as <- _ <-.
    split; [reflexivity |]. rewrite pymax_Qmax.
    destruct (Qmax_cases (order_price order) bid) as [[H ->] | [H ->]]; lra.
Qed.

Lemma limit_fill_is_taker_unless_crossed_witness :
  98 <= 99
  /\ forall fill_price fill_size is_maker,
      OrderSimulator.check_limit_order_fill
        sample_order 98 99 [(98, 10)] [(99, 15)]
      = Some (fill_price, fill_size, is_maker) ->
      is_maker = false /\ fill_price == 99.
Proof.
  assert (Huncrossed : 98 <= 99) by by_computation.
  split; [exact Huncrossed |].
  intros fill_price fill_size is_maker Hfill.
  exact (limit_fill_is_taker_unless_crossed
           sample_order 98 99 [(98, 10)] [(99, 15)]
           fill_price fill_size is_maker Huncrossed Hfill).
Defined.

Module MarketPrice.
Import OrderSimulator.




End MarketPrice.



(** X8.  [_walk_order_book] never looks past the tenth level: whatever
    follows ten or more levels changes neither the price nor the size it
    returns. *)
Theorem market_fill_ignores_levels_beyond_ten
        (levels extra : book_side) (size start : Q) (is_buy : bool) :
  (10 <= List.length levels)%nat ->
  OrderSimulator._walk_order_book (levels ++ extra) size start is_buy
  = OrderSimulator._walk_order_book levels size start is_buy.
Proof.
  intro Hlen. unfold OrderSimulator._walk_order_book.
  destruct levels as [| lvl rest]; [simpl in Hlen; lia |].
  change ((lvl :: rest) ++ extra) with (lvl :: (rest ++ extra)).
  cbv beta iota.
  change (lvl :: (rest ++ extra)) with ((lvl :: rest) ++ extra).
  rewrite firstn_app.
  replace (10 - List.length (lvl :: rest))%nat with 0%nat by lia.
  rewrite firstn_O, app_nil_r.
  rewrite length_app.
  replace (Nat.min 9 (List.length (lvl :: rest) + List.length extra - 1)) with 9%nat
    by lia.
  replace (Nat.min 9 (List.length (lvl :: rest) - 1)) with 9%nat by lia.
  rewrite app_nth1 by lia.
  reflexivity.
Qed.

Lemma market_fill_ignores_levels_beyond_ten_witness :
  OrderSimulator._walk_order_book
    (repeat (100, 1) 10 ++ [(500, 1000)]) 20 100 true
  = OrderSimulator._walk_order_book (repeat (100, 1) 10) 20 100 true.
Proof.
  apply (market_fill_ignores_levels_beyond_ten
           (repeat (100, 1) 10) [(500, 1000)] 20 100 true).
  simpl. lia.
Defined.

(** ** Portfolio ledger *)

Module Ledger.
Import Portfolio.

Lemma dict_del_app_absent {V} (k : string) (v : V) (d : list (string * V)) :
  dict_get String.eqb k d = None ->
  dict_del String.eqb k (d ++ [(k, v)]) = d.
Proof.
  induction d as [| [k' v'] d IH]; simpl.
  - now rewrite String.eqb_refl.
  - destruct (String.eqb k k'); [discriminate |]. intro H. now rewrite IH.
Qed.

Lemma set_open_orders_twice (o o' : list (string * DataOrder))
      (s : PortfolioTracker) :
  set_open_orders o (set_open_orders o' s) = set_open_orders o s.
Proof. reflexivity. Qed.

Lemma record_trade_counts (profitable : bool) (s : PortfolioTracker) :
  total_trades (snd (record_trade profitable s)) = (total_trades s + 1)%Z
  /\ winning_trades (snd (record_trade profitable s))
     = (if profitable then winning_trades s + 1 else winning_trades s)%Z.
Proof.
  rewrite Drawdown.record_trade_unfold. cbv zeta.
  pose proof (Drawdown.before_division_fields profitable s)
    as (_ & _ & _ & Ht & Hw & _).
  cbv zeta in Ht, Hw.
  destruct (Qeq_bool _ 0); simpl; [split; assumption |].
  match goal with
  | |- context [Qlt_bool ?a ?b] => destruct (Qlt_bool a b)
  end; simpl; split; assumption.
Qed.

Lemma run_op_counts (op : portfolio_op) (s : PortfolioTracker) :
  total_trades (run_op op s)
  = (total_trades s + if is_record_trade op then 1 else 0)%Z
  /\ winning_trades (run_op op s)
     = (winning_trades s + if is_winning_trade op then 1 else 0)%Z.
Proof.
  destruct op; simpl; try (split; lia).
  - unfold update_position.
    destruct (Qeq_bool size 0); destruct (negb (Qeq_bool realized_pnl 0));
      simpl; split; lia.
  - destruct (record_trade_counts profitable s) as [-> ->].
    destruct profitable; split; lia.
Qed.

Lemma run_ops_counts (ops : list portfolio_op) :
  forall s,
    total_trades (run_ops ops s)
    = (total_trades s + Z.of_nat (List.length (filter is_record_trade ops)))%Z
    /\ winning_trades (run_ops ops s)
       = (winning_trades s
          + Z.of_nat (List.length (filter is_winning_trade ops)))%Z.
Proof.
  induction ops as [| op ops IH]; intro s; simpl; [split; lia |].
  destruct (IH (run_op op s)) as [-> ->].
  destruct (run_op_counts op s) as [-> ->].
  destruct (is_record_trade op); destruct (is_winning_trade op); simpl; split; lia.
Qed.

Lemma winning_is_record (op : portfolio_op) :
  is_winning_trade op = true -> is_record_trade op = true.
Proof. destruct op as [| | | | [|] |]; simpl; congruence. Qed.

Lemma winning_at_most_total (ops : list portfolio_op) :
  (List.length (filter is_winning_trade ops)
   <= List.length (filter is_record_trade ops))%nat.
Proof.
  induction ops as [| op ops IH]; simpl; [lia |].
  destruct (is_winning_trade op) eqn:E.
  - rewrite (winning_is_record op E). simpl. lia.
  - destruct (is_record_trade op); simpl; lia.
Qed.

Lemma run_ops_monotone (ops : list portfolio_op) :
  forall s,
    peak_balance s <= peak_balance (run_ops ops s)
    /\ max_drawdown s <= max_drawdown (run_ops ops s).
Proof.
  induction ops as [| op ops IH]; intro s; simpl.
  - split; apply Qle_refl.
  - destruct (Drawdown.run_op_monotone op s) as [Hp Hd].
    destruct (IH (run_op op s)) as [Hp' Hd'].
    split; eapply Qle_trans; eauto.
Qed.

End Ledger.

(** X9.  An order added with [add_order] is found by [get_order] under its
    id, without disturbing the lookup of any other id, and [remove_order]
    hands it back and leaves no order under that id; adding an order under
    a fresh id and removing it again restores the ledger exactly; removing
    an id that is not resting returns [None] and changes nothing. *)
Theorem order_bookkeeping_round_trip (order : DataOrder) (s : PortfolioTracker) :
  let id := order_id order in
  let s1 := Portfolio.add_order order s in
  Portfolio.get_order id s1 = Some order
  /\ (forall id', id' <> id -> Portfolio.get_order id' s1 = Portfolio.get_order id' s)
  /\ fst (Portfolio.remove_order id s1) = Some order
  /\ Portfolio.get_order id (snd (Portfolio.remove_order id s1)) = None
  /\ (Portfolio.get_order id s = None -> snd (Portfolio.remove_order id s1) = s)
  /\ (forall id', Portfolio.get_order id' s = None ->
                  Portfolio.remove_order id' s = (None, s)).
Proof.
  intros id s1. subst id s1.
  unfold Portfolio.get_order, Portfolio.remove_order, Portfolio.add_order, dict_pop.
  cbn [open_orders set_open_orders fst snd].
  split; [apply (dict_get_set_same _ String.eqb_eq) |].
  split; [intros id' N; apply (dict_get_set_other _ String.eqb_eq), N |].
  split; [apply (dict_get_set_same _ String.eqb_eq) |].
  split; [apply (dict_get_del_same String.eqb) |].
  split.
  - intro Hfresh. rewrite (Orders.dict_set_absent _ _ _ Hfresh).
    rewrite (Ledger.dict_del_app_absent _ _ _ Hfresh).
    rewrite Ledger.set_open_orders_twice.
    apply Orders.set_open_orders_same.
  - intros id' Habsent. rewrite Habsent, (dict_del_absent _ _ _ Habsent).
    now rewrite Orders.set_open_orders_same.
Qed.

Lemma order_bookkeeping_round_trip_witness :
  snd (Portfolio.remove_order
         "paper_1" (Portfolio.add_order sample_order (Portfolio.init 1000 5)))
  = Portfolio.init 1000 5
  /\ Portfolio.remove_order "paper_9" sample_ledger = (None, sample_ledger).
Proof.
  pose proof (order_bookkeeping_round_trip sample_order (Portfolio.init 1000 5))
    as H1.
  pose proof (order_bookkeeping_round_trip sample_order sample_ledger) as H2.
  cbv zeta in H1, H2.
  destruct H1 as (_ & _ & _ & _ & Hrestore & _).
  destruct H2 as (_ & _ & _ & _ & _ & Habsent).
  split; [apply Hrestore; reflexivity | apply Habsent; reflexivity].
Defined.

(** X10.  After [update_position] with a non-zero size, [get_position]
    returns exactly the position written (side, size, entry price, time);
    with size 0 the side is empty afterwards, also when it was empty before
    (no error); the other side is never touched, the balance moves by
    exactly the realized PnL passed in, and orders, trade counters, fees,
    peak and drawdown stay as they are. *)
Theorem update_position_round_trip
        (now : timestamp) (side : GenericPositionSide)
        (size entry_price realized_pnl : Q) (s : PortfolioTracker) :
  let s' := Portfolio.update_position now side size entry_price realized_pnl s in
  (~ size == 0 ->
   Portfolio.get_position side s' = Some (mkPosition side size entry_price now))
  /\ (size == 0 -> Portfolio.get_position side s' = None)
  /\ (forall side', side' <> side ->
                    Portfolio.get_position side' s' = Portfolio.get_position side' s)
  /\ balance s' == balance s + realized_pnl
  /\ open_orders s' = open_orders s
  /\ total_trades s' = total_trades s
  /\ winning_trades s' = winning_trades s
  /\ total_fees_paid s' = total_fees_paid s
  /\ peak_balance s' = peak_balance s
  /\ max_drawdown s' = max_drawdown s.
Proof.
  cbv zeta.
  split; [intro Hnz; rewrite Fill.get_position_update_same;
          apply Qeq_bool_false_iff in Hnz; now rewrite Hnz |].
  split; [intro Hz; rewrite Fill.get_position_update_same;
          apply Qeq_bool_iff in Hz; now rewrite Hz |].
  split; [intros side' N; now apply Fill.get_position_update_other |].
  apply Fill.update_position_frame.
Qed.

Lemma update_position_round_trip_witness :
  Portfolio.get_position
    LONG (Portfolio.update_position 3%Z LONG 10 100 0 sample_short_ledger)
  = Some (mkPosition LONG 10 100 3%Z)
  /\ Portfolio.get_position
       LONG (Portfolio.update_position 3%Z LONG 0 100 0 sample_short_ledger)
     = None
  /\ Portfolio.get_position
       SHORT (Portfolio.update_position 3%Z LONG 10 100 0 sample_short_ledger)
     = Portfolio.get_position SHORT sample_short_ledger.
Proof.
  pose proof (update_position_round_trip 3%Z LONG 10 100 0 sample_short_ledger)
    as H1.
  pose proof (update_position_round_trip 3%Z LONG 0 100 0 sample_short_ledger)
    as H2.
  cbv zeta in H1, H2.
  destruct H1 as (Hset & _ & Hother & _). destruct H2 as (_ & Hdel & _).
  split; [apply Hset; by_computation |].
  split; [apply Hdel; reflexivity | apply Hother; discriminate].
Defined.

(** X12.  With a positive leverage and a non-negative price the margin
    check is monotone in the size: if [can_open_position] approves a size,
    it approves every smaller one in the same state. *)
Theorem can_open_position_monotone_in_size
        (s : PortfolioTracker) (size size' price mark : Q) :
  (0 < max_leverage s)%Z -> 0 <= price -> size' <= size ->
  Portfolio.can_open_position size price mark s = Ok true ->
  Portfolio.can_open_position size' price mark s = Ok true.
Proof.
  intros Hlev Hprice Hsize.
  assert (Hnz : max_leverage s <> 0%Z) by lia.
  unfold Portfolio.can_open_position.
  rewrite !(Margin.pydiv_nonzero _ _ Hnz).
  intro H. injection H as H. apply Qle_bool_iff in H.
  f_equal. apply Qle_bool_iff.
  eapply Qle_trans; [| exact H].
  assert (Hinv : 0 <= / inject_Z (max_leverage s)).
  { apply Qinv_le_0_compat. rewrite <- (Zle_Qle 0). lia. }
  unfold Qdiv. apply Qmult_le_compat_r; [| exact Hinv]. nra.
Qed.

Lemma can_open_position_monotone_in_size_witness :
  Portfolio.can_open_position 5 100 100 (Portfolio.init 1000 5) = Ok true.
Proof.
  apply (can_open_position_monotone_in_size (Portfolio.init 1000 5) 10 5 100 100).
  - simpl. lia.
  - by_computation.
  - by_computation.
  - reflexivity.
Defined.

(** X13.  Starting from a fresh ledger, [total_trades] is the number of
    [record_trade] calls made so far and [winning_trades] the number of
    those that were profitable, also counting calls that raised; hence
    [0 <= winning_trades <= total_trades], and the win rate reported by
    [get_statistics] lies between 0 and 100 (it is 0 before any trade). *)
Theorem trade_counters_and_win_rate
        (initial : Q) (leverage : Z) (ops : list portfolio_op) :
  let s := run_ops ops (Portfolio.init initial leverage) in
  total_trades s = Z.of_nat (List.length (filter is_record_trade ops))
  /\ winning_trades s = Z.of_nat (List.length (filter is_winning_trade ops))
  /\ (0 <= winning_trades s <= total_trades s)%Z
  /\ 0 <= Portfolio.st_win_rate_pct (Portfolio.get_statistics s) <= 100
  /\ (total_trades s = 0%Z -> Portfolio.st_win_rate_pct (Portfolio.get_statistics s) = 0).
Proof.
  intro s. subst s.
  destruct (Ledger.run_ops_counts ops (Portfolio.init initial leverage))
    as [Ht Hw].
  simpl total_trades in Ht at 2. simpl winning_trades in Hw at 2.
  pose proof (Ledger.winning_at_most_total ops) as Hle.
  set (s := run_ops ops (Portfolio.init initial leverage)) in *.
  assert (Hbounds : (0 <= winning_trades s <= total_trades s)%Z) by lia.
  split; [lia |]. split; [lia |]. split; [exact Hbounds |].
  unfold Portfolio.get_statistics. cbn [Portfolio.st_win_rate_pct].
  destruct (0 <? total_trades s)%Z eqn:Hpos.
  - apply Z.ltb_lt in Hpos.
    assert (Ht0 : 0 < inject_Z (total_trades s))
      by (rewrite <- (Zlt_Qlt 0); exact Hpos).
    assert (Hw0 : 0 <= inject_Z (winning_trades s))
      by (rewrite <- (Zle_Qle 0); lia).
    assert (Hwt : inject_Z (winning_trades s) <= inject_Z (total_trades s))
      by (rewrite <- Zle_Qle; lia).
    assert (Hratio : 0 <= inject_Z (winning_trades s) / inject_Z (total_trades s)
                     /\ inject_Z (winning_trades s) / inject_Z (total_trades s) <= 1).
    { split.
      - apply Qle_shift_div_l; [exact Ht0 | lra].
      - apply Qle_shift_div_r; [exact Ht0 | lra]. }
    split; [lra |]. intro Hz. lia.
  - split; [split; by_computation | reflexivity].
Qed.

(** X14.  On a ledger opened with a positive initial balance, whatever
    operations have run since, the peak balance is at least the initial
    balance and the maximum drawdown is non-negative; so the division in
    [record_trade] has a non-zero divisor and [record_trade] returns
    normally. *)
Theorem fresh_ledger_record_trade_never_raises
        (initial : Q) (leverage : Z) (ops : list portfolio_op) (profitable : bool) :
  0 < initial ->
  let s := run_ops ops (Portfolio.init initial leverage) in
  initial <= peak_balance s
  /\ 0 <= max_drawdown s
  /\ fst (Portfolio.record_trade profitable s) = Ok tt.
Proof.
  intros Hinit s. subst s.
  destruct (Ledger.run_ops_monotone ops (Portfolio.init initial leverage))
    as [Hp Hd].
  simpl peak_balance in Hp at 1. simpl max_drawdown in Hd at 1.
  split; [exact Hp |]. split; [exact Hd |].
  destruct (Fill.record_trade_ok
              profitable (run_ops ops (Portfolio.init initial leverage)))
    as (s' & Hrun & _); [lra |].
  now rewrite Hrun.
Qed.

Lemma fresh_ledger_record_trade_never_raises_witness :
  fst (Portfolio.record_trade
         false (run_ops [ApplyFee 2000; RecordTrade false]
                        (Portfolio.init 1000 5)))
  = Ok tt.
Proof.
  assert (Hinit : 0 < 1000) by by_computation.
  pose proof (fresh_ledger_record_trade_never_raises
                1000 5 [ApplyFee 2000; RecordTrade false] false Hinit) as H.
  cbv zeta in H. destruct H as (_ & _ & Hok). exact Hok.
Defined.

(** ** Execution coordinator *)

Module Exchange.
Import OrderSimulator Portfolio PaperTradingExchange.

(** Once nothing remains the loop of the walk changes nothing. *)
Lemma walk_loop_done (levels : book_side) (remaining cost filled : Q) :
  remaining <= 0 ->
  walk_loop levels remaining cost filled = (remaining, cost, filled).
Proof.
  intro H. destruct levels as [| [level_price level_size] rest]; [reflexivity |].
  simpl. apply Qle_bool_iff in H. now rewrite H.
Qed.

(** A market order of positive size that the best opposing level alone
    covers takes it all there: one [min], one addition to zero and one
    subtraction of the size from itself. *)
Lemma simulate_filled (side : GenericOrderSide) (size bid ask : Q)
      (md : MarketData) :
  0 < size ->
  best_level_covers size (opposing_book side md) ->
  snd (simulate_market_order_fill
         side size bid ask (buy_orders_list md) (sell_orders_list md)) == size.
Proof.
  intros Hsize Hcover.
  assert (Hwalk :
            forall (levels : book_side) (start : Q) (is_buy : bool),
              best_level_covers size levels ->
              snd (_walk_order_book levels size start is_buy) == size).
  { intros levels start is_buy Hc.
    destruct levels as [| [level_price level_size] rest]; [contradiction |].
    simpl in Hc. unfold _walk_order_book.
    change (firstn 10 ((level_price, level_size) :: rest))
      with ((level_price, level_size) :: firstn 9 rest).
    cbn [walk_loop].
    assert (H1 : Qle_bool size 0 = false) by (apply Qle_bool_false_iff; exact Hsize).
    assert (H2 : pymin size level_size = size).
    { unfold pymin.
      assert (H : Qlt_bool level_size size = false)
        by (apply Qlt_bool_false_iff; exact Hc).
      now rewrite H. }
    rewrite H1. cbv zeta. rewrite H2.
    rewrite walk_loop_done by lra.
    assert (H3 : Qlt_bool 0 (size - size) = false)
      by (apply Qlt_bool_false_iff; lra).
    assert (H4 : Qlt_bool 0 (0 + size) = true)
      by (apply Qlt_bool_iff; lra).
    rewrite H3, H4. cbn [snd]. lra. }
  unfold simulate_market_order_fill.
  destruct side; apply Hwalk; exact Hcover.
Qed.

Lemma record_trade_keeps_positions (profitable : bool) (s : PortfolioTracker) :
  open_positions (snd (record_trade profitable s)) = open_positions s.
Proof.
  rewrite Drawdown.record_trade_unfold. cbv zeta.
  pose proof (Drawdown.before_division_fields profitable s)
    as (_ & _ & _ & _ & _ & _ & Hp & _).
  cbv zeta in Hp.
  destruct (Qeq_bool _ 0); simpl; [exact Hp |].
  match goal with
  | |- context [Qlt_bool ?a ?b] => destruct (Qlt_bool a b)
  end; simpl; exact Hp.
Qed.

Lemma open_step_idle (now : timestamp) (own : GenericPositionSide)
      (fill_price remaining : Q) (current : option DataPosition)
      (s : PortfolioTracker) :
  remaining <= 0 ->
  open_step now own fill_price remaining current s = (Ok tt, s).
Proof.
  intro H. unfold open_step. apply Qlt_bool_false_iff in H. now rewrite H.
Qed.

Lemma open_step_other_side (now : timestamp) (own side' : GenericPositionSide)
      (fill_price remaining : Q) (current : option DataPosition)
      (s : PortfolioTracker) :
  side' <> own ->
  get_position side' (snd (open_step now own fill_price remaining current s))
  = get_position side' s.
Proof.
  intro N. unfold open_step.
  destruct (Qlt_bool 0 remaining); [| reflexivity].
  destruct current as [cur |].
  - destruct (pydiv _ _); simpl; [| reflexivity].
    now apply Fill.get_position_update_other.
  - simpl. now apply Fill.get_position_update_other.
Qed.

Lemma one_sided_own_opp (side : GenericOrderSide) (s : PortfolioTracker) :
  one_sided s
  <-> get_position (position_side_of side) s = None
      \/ get_position (opposite_side_of side) s = None.
Proof. unfold one_sided. destruct side; simpl; tauto. Qed.

(** From a ledger in good standing [_process_fill] returns normally. *)
Lemma process_fill_returns (now1 now2 : timestamp) (side : GenericOrderSide)
      (fill_price fill_size : Q) (is_maker : bool) (s : PortfolioTracker) :
  ledger_wf s ->
  fst (_process_fill now1 now2 side fill_price fill_size is_maker s) = Ok tt.
Proof.
  intros [Hpeak Hpos].
  set (own := position_side_of side). set (opp := opposite_side_of side).
  assert (Hne : opp <> own) by apply opposite_is_not_own.
  rewrite Fill.process_fill_unfold. cbv zeta. fold own opp.
  destruct (get_position opp s) as [opposite |] eqn:Hopp.
  - match goal with
    | |- context [record_trade ?b ?st] =>
        destruct (Fill.record_trade_ok b st) as (s2 & Hrec & _ & Hp2 & _)
    end.
    { match goal with
      | |- context [update_position ?n ?sd ?sz ?e ?p s] =>
          pose proof (Fill.update_position_frame n sd sz e p s)
            as (_ & _ & _ & _ & _ & Hpk & _)
      end.
      cbv zeta in Hpk. rewrite Hpk. exact Hpeak. }
    rewrite Hrec.
    assert (Hown2 : get_position own s = get_position own s2).
    { unfold get_position at 2. rewrite Hp2.
      symmetry. apply Fill.get_position_update_other. auto. }
    rewrite Hown2.
    match goal with
    | |- context [open_step ?n ?o ?fp ?r _ s2] =>
        destruct (Fill.open_step_spec n o fp r s2) as (s' & Hstep & _)
    end.
    { intros cur Hc. rewrite <- Hown2 in Hc. apply Qlt_le_weak. eauto. }
    now rewrite Hstep.
  - destruct (Fill.open_step_spec now2 own fill_price fill_size s)
      as (s' & Hstep & _).
    { intros cur Hc. apply Qlt_le_weak. eauto. }
    now rewrite Hstep.
Qed.

(** A fill of exactly the size of the opposite position closes it and
    touches nothing else among the positions. *)
Lemma process_fill_full_close (now1 now2 : timestamp) (side : GenericOrderSide)
      (fill_price fill_size : Q) (is_maker : bool) (s : PortfolioTracker)
      (opposite : DataPosition) :
  0 < peak_balance s ->
  get_position (opposite_side_of side) s = Some opposite ->
  fill_size == pos_size opposite ->
  exists s',
    _process_fill now1 now2 side fill_price fill_size is_maker s = (Ok tt, s')
    /\ open_positions s'
       = dict_del position_side_eqb (opposite_side_of side) (open_positions s)
    /\ open_orders s' = open_orders s
    /\ total_trades s' = (total_trades s + 1)%Z.
Proof.
  intros Hpeak Hopp Hsize.
  rewrite Fill.process_fill_unfold. cbv zeta. rewrite Hopp.
  set (close_size := Qmin fill_size (pos_size opposite)).
  assert (Hclose : close_size == pos_size opposite).
  { subst close_size.
    destruct (Qmin_cases fill_size (pos_size opposite)) as [[_ ->] | [_ ->]];
      [exact Hsize | reflexivity]. }
  match goal with
  | |- context [update_position ?n ?sd ?sz ?e ?p s] =>
      set (closed := update_position n sd sz e p s);
      pose proof (Fill.update_position_frame n sd sz e p s)
        as (_ & Ho & Ht & _ & _ & Hpk & _)
  end.
  cbv zeta in Ho, Ht, Hpk. fold closed in Ho, Ht, Hpk.
  assert (Hdel : open_positions closed
                 = dict_del position_side_eqb (opposite_side_of side)
                            (open_positions s)).
  { subst closed. unfold update_position.
    assert (Hz : Qeq_bool (pos_size opposite - close_size) 0 = true)
      by (apply Qeq_bool_iff; rewrite Hclose; ring).
    rewrite Hz.
    match goal with
    | |- context [if ?c then _ else _] => destruct c
    end; reflexivity. }
  match goal with
  | |- context [record_trade ?b closed] =>
      destruct (Fill.record_trade_ok b closed)
        as (s2 & Hrec & _ & Hp2 & Ho2 & _ & Ht2 & _);
      [rewrite Hpk; exact Hpeak |]
  end.
  rewrite Hrec.
  rewrite open_step_idle by (rewrite Hsize, Hclose; lra).
  exists s2. split; [reflexivity |].
  split; [rewrite Hp2; exact Hdel |].
  split; [rewrite Ho2; exact Ho | rewrite Ht2, Ht; reflexivity].
Qed.

(** Undisturbed runs compose. *)
Lemma run_alone_bind {A B} (t : task A) (md : MarketData)
      (k : A -> PortfolioTracker -> MarketData -> task B) :
  run_alone (task_bind t md k) md
  = match run_alone t md with
    | (Ok a, s') => run_alone (k a s' md) md
    | (Raise e, s') => (Raise e, s')
    end.
Proof.
  induction t as [[a | e] s | d s c IH]; simpl; try reflexivity. apply IH.
Qed.

(** Removing a key that heads the dictionary once. *)
Lemma dict_del_head {V} (k : GenericPositionSide) (v : V)
      (rest : list (GenericPositionSide * V)) :
  ~ In k (map fst rest) ->
  dict_del position_side_eqb k ((k, v) :: rest) = rest.
Proof.
  intro Hnotin. simpl.
  assert (E : position_side_eqb k k = true) by (now apply position_side_eqb_spec).
  rewrite E. clear E.
  induction rest as [| [k' v'] rest IH]; simpl; [reflexivity |].
  destruct (position_side_eqb k k') eqn:E.
  - apply position_side_eqb_spec in E. subst k'. exfalso. apply Hnotin. now left.
  - f_equal. apply IH. intro H. apply Hnotin. now right.
Qed.

End Exchange.

(** X15.  [open_market_order] is rejected on the spot, with [None], without
    sleeping and without touching the ledger, whenever a side of the book is
    empty or its best price is zero, whatever the size and also for a
    reduce-only order. *)
Theorem market_order_needs_quotes
        (fill_delay_ms : Z) (ent : entropy) (side : GenericOrderSide) (size : Q)
        (is_reduce : bool) (s : PortfolioTracker) (md : MarketData) :
  (buy_orders_list md = []
   \/ sell_orders_list md = []
   \/ (exists bid, first_price (buy_orders_list md) = Some bid /\ bid == 0)
   \/ (exists ask, first_price (sell_orders_list md) = Some ask /\ ask == 0)) ->
  PaperTradingExchange.open_market_order fill_delay_ms ent side size is_reduce s md
  = Done (Ok None) s.
Proof.
  unfold PaperTradingExchange.open_market_order.
  intros [H | [H | [(bid & H & Hz) | (ask & H & Hz)]]].
  - rewrite H. reflexivity.
  - rewrite H. simpl. destruct (first_price (buy_orders_list md)); reflexivity.
  - rewrite H. apply Qeq_bool_iff in Hz. rewrite Hz.
    destruct (first_price (sell_orders_list md)); reflexivity.
  - rewrite H. apply Qeq_bool_iff in Hz. rewrite Hz.
    destruct (first_price (buy_orders_list md)); [| reflexivity].
    now rewrite orb_true_r.
Qed.

Lemma market_order_needs_quotes_witness :
  PaperTradingExchange.open_market_order
    100%Z (no_jitter 0%nat) BUY 1 true sample_short_ledger
    (mkMarket [(98, 10)] [] None)
  = Done (Ok None) sample_short_ledger.
Proof.
  apply (market_order_needs_quotes
           100%Z (no_jitter 0%nat) BUY 1 true sample_short_ledger
           (mkMarket [(98, 10)] [] None)).
  right. left. reflexivity.
Defined.

(** X16.  A turn of the monitoring loop leaves the ledger exactly as it
    found it when a side of the book is empty (it then waits 0.1 s), and
    when no resting order is marketable, every BUY being priced below the
    best ask and every SELL above the best bid (it then waits 0.05 s); in
    both cases it ends after that one wait without an exception. *)
Theorem monitor_turn_without_fills
        (fill_delay_ms : Z) (ent : nat -> entropy)
        (s : PortfolioTracker) (md : MarketData) :
  let turn := PaperTradingExchange._monitor_orders_iteration
                fill_delay_ms ent s md in
  ((buy_orders_list md = [] \/ sell_orders_list md = []) ->
   exists k, turn = Sleep 0.1 s k /\ forall s' md', k s' md' = Done (Ok tt) s')
  /\ (forall bid ask,
         first_price (buy_orders_list md) = Some bid ->
         first_price (sell_orders_list md) = Some ask ->
         (forall order,
             In order (dict_values (open_orders s)) ->
             match order_side order with
             | BUY => order_price order < ask
             | SELL => bid < order_price order
             end) ->
         exists k,
           turn = Sleep 0.05 s k /\ forall s' md', k s' md' = Done (Ok tt) s').
Proof.
  intro turn. subst turn.
  unfold PaperTradingExchange._monitor_orders_iteration. split.
  - intros [H | H]; rewrite H.
    + eexists; split; reflexivity.
    + destruct (buy_orders_list md) as [| [bid ?] ?];
        eexists; split; reflexivity.
  - intros bid ask Hbid Hask Hidle.
    destruct (buy_orders_list md) as [| [bid' bsz] brest] eqn:Hb;
      [discriminate |].
    destruct (sell_orders_list md) as [| [ask' asz] arest] eqn:Ha;
      [discriminate |].
    simpl in Hbid, Hask. injection Hbid as ->. injection Hask as ->.
    assert (Hnone :
              PaperTradingExchange.orders_to_fill bid ask md s = []).
    { unfold PaperTradingExchange.orders_to_fill.
      induction (dict_values (open_orders s)) as [| order orders IH];
        [reflexivity |].
      simpl. rewrite IH by (intros o Ho; apply Hidle; now right).
      specialize (Hidle order (or_introl eq_refl)).
      unfold OrderSimulator.check_limit_order_fill.
      destruct (order_side order).
      - apply Qle_bool_false_iff in Hidle. now rewrite Hidle.
      - apply Qle_bool_false_iff in Hidle. now rewrite Hidle. }
    rewrite Hnone. simpl.
    eexists; split; reflexivity.
Qed.

Lemma monitor_turn_without_fills_witness :
  exists k,
    PaperTradingExchange._monitor_orders_iteration
      100%Z no_jitter sample_ledger (mkMarket [(97, 10)] [(100, 15)] None)
    = Sleep 0.05 sample_ledger k.
Proof.
  pose proof (monitor_turn_without_fills
                100%Z no_jitter sample_ledger
                (mkMarket [(97, 10)] [(100, 15)] None)) as H.
  cbv zeta in H. destruct H as [_ Hidle].
  destruct (Hidle 97 100 eq_refl eq_refl) as (k & Hk & _).
  - intros order [<- | []]. by_computation.
  - exists k. exact Hk.
Defined.

(** X18.  From a ledger in good standing (positive peak balance, every open
    position of positive size) [_process_fill] returns normally for every
    side, price and size, and leaves a ledger in good standing: no fill
    ever stores a position of zero or negative size. *)
Theorem process_fill_keeps_good_standing
        (now1 now2 : timestamp) (side : GenericOrderSide)
        (fill_price fill_size : Q) (is_maker : bool) (s : PortfolioTracker) :
  ledger_wf s ->
  exists s',
    PaperTradingExchange._process_fill
      now1 now2 side fill_price fill_size is_maker s = (Ok tt, s')
    /\ ledger_wf s'.
Proof.
  intro Hwf.
  pose proof (Exchange.process_fill_returns
                now1 now2 side fill_price fill_size is_maker s Hwf) as Hok.
  pose proof (Invariant.process_fill_preserves_wf
                now1 now2 side fill_price fill_size is_maker s Hwf) as Hwf'.
  destruct (PaperTradingExchange._process_fill
              now1 now2 side fill_price fill_size is_maker s) as [r s'].
  simpl in Hok, Hwf'. subst r. exists s'. split; [reflexivity | exact Hwf'].
Qed.

Lemma process_fill_keeps_good_standing_witness :
  exists s',
    PaperTradingExchange._process_fill 1%Z 2%Z BUY 95 8 false sample_short_ledger
    = (Ok tt, s')
    /\ ledger_wf s'.
Proof.
  apply (process_fill_keeps_good_standing 1%Z 2%Z BUY 95 8 false sample_short_ledger).
  split; [by_computation |].
  intros [|] p Hp; vm_compute in Hp; [discriminate |].
  injection Hp as <-. by_computation.
Defined.

(** X19.  [_process_fill] never leaves both sides open when it did not find
    them both open: a ledger with at most one open side has at most one
    open side after any fill, whether the call returns or raises.  A long
    and a short therefore never coexist on a ledger that started flat. *)
Theorem process_fill_keeps_one_side
        (now1 now2 : timestamp) (side : GenericOrderSide)
        (fill_price fill_size : Q) (is_maker : bool) (s : PortfolioTracker) :
  one_sided s ->
  one_sided (snd (PaperTradingExchange._process_fill
                    now1 now2 side fill_price fill_size is_maker s)).
Proof.
  intro Hone. apply (Exchange.one_sided_own_opp side) in Hone.
  apply (Exchange.one_sided_own_opp side).
  set (own := PaperTradingExchange.position_side_of side) in *.
  set (opp := PaperTradingExchange.opposite_side_of side) in *.
  assert (Hne : opp <> own) by apply opposite_is_not_own.
  rewrite Fill.process_fill_unfold. cbv zeta. fold own opp.
  destruct (Portfolio.get_position opp s) as [opposite |] eqn:Hopp.
  - destruct Hone as [Hown | Habs]; [| discriminate].
    rewrite Hown.
    set (close_size := Qmin fill_size (pos_size opposite)).
    match goal with
    | |- context [Portfolio.update_position ?n ?sd ?sz ?e ?p s] =>
        set (closed := Portfolio.update_position n sd sz e p s)
    end.
    assert (Hown_closed : Portfolio.get_position own closed = None).
    { subst closed. rewrite Fill.get_position_update_other by auto. exact Hown. }
    match goal with
    | |- context [Portfolio.record_trade ?b closed] =>
        pose proof (Exchange.record_trade_keeps_positions b closed) as Hp2;
        destruct (Portfolio.record_trade b closed) as [[[] | e] s2]
    end; simpl in Hp2.
    + destruct (Qlt_le_dec 0 (fill_size - close_size)) as [Hleft | Hnone].
      * right. rewrite Exchange.open_step_other_side by auto.
        unfold Portfolio.get_position. rewrite Hp2.
        fold (Portfolio.get_position opp closed).
        subst closed. rewrite Fill.get_position_update_same.
        assert (Hz : pos_size opposite - close_size == 0).
        { subst close_size.
          destruct (Qmin_cases fill_size (pos_size opposite))
            as [[_ E] | [_ E]]; rewrite E in *; lra. }
        apply Qeq_bool_iff in Hz. now rewrite Hz.
      * left. rewrite Exchange.open_step_idle by exact Hnone. simpl.
        unfold Portfolio.get_position. rewrite Hp2. exact Hown_closed.
    + left. simpl. unfold Portfolio.get_position. rewrite Hp2. exact Hown_closed.
  - right. rewrite Exchange.open_step_other_side by auto. exact Hopp.
Qed.

Lemma process_fill_keeps_one_side_witness :
  one_sided (snd (PaperTradingExchange._process_fill
                    1%Z 2%Z BUY 95 8 false sample_short_ledger)).
Proof.
  apply (process_fill_keeps_one_side 1%Z 2%Z BUY 95 8 false sample_short_ledger).
  left. reflexivity.
Defined.

Module Closing.
Import OrderSimulator Portfolio PaperTradingExchange.

Lemma market_order_rejected (fill_delay_ms : Z) (ent : entropy)
      (side : GenericOrderSide) (size : Q) (is_reduce : bool)
      (s : PortfolioTracker) (md : MarketData) :
  (buy_orders_list md = []
   \/ sell_orders_list md = []
   \/ (exists bid, first_price (buy_orders_list md) = Some bid /\ bid == 0)
   \/ (exists ask, first_price (sell_orders_list md) = Some ask /\ ask == 0)) ->
  open_market_order fill_delay_ms ent side size is_reduce s md = Done (Ok None) s.
Proof.
  unfold open_market_order.
  intros [H | [H | [(bid & H & Hz) | (ask & H & Hz)]]].
  - rewrite H. reflexivity.
  - rewrite H. simpl. destruct (first_price (buy_orders_list md)); reflexivity.
  - rewrite H. apply Qeq_bool_iff in Hz. rewrite Hz.
    destruct (first_price (sell_orders_list md)); reflexivity.
  - rewrite H. apply Qeq_bool_iff in Hz. rewrite Hz.
    destruct (first_price (buy_orders_list md)); [| reflexivity].
    now rewrite orb_true_r.
Qed.

(** The undisturbed run of a market order that passes the margin check (or
    is reduce-only) on a quoted book: the fee, then the fill. *)
Lemma market_order_runs (fill_delay_ms : Z) (ent : entropy)
      (side : GenericOrderSide) (size bid ask : Q) (is_reduce : bool)
      (s : PortfolioTracker) (md : MarketData) :
  first_price (buy_orders_list md) = Some bid -> ~ bid == 0 ->
  first_price (sell_orders_list md) = Some ask -> ~ ask == 0 ->
  (is_reduce = true
   \/ can_open_position size (if order_side_eqb side BUY then ask else bid)
                        (mark_price_or md ((bid + ask) / 2)) s = Ok true) ->
  let fill := simulate_market_order_fill
                side size bid ask (buy_orders_list md) (sell_orders_list md) in
  let fee := calculate_fee (fst fill) (snd fill) false in
  run_alone (open_market_order fill_delay_ms ent side size is_reduce s md) md
  = match _process_fill (now_close ent) (now_open ent) side
                        (fst fill) (snd fill) false (apply_fee fee s) with
    | (Ok _, s') => (Ok (Some (mkFillDict side (snd fill) (fst fill) fee)), s')
    | (Raise e, s') => (Raise e, s')
    end.
Proof.
  intros Hbid Hbz Hask Haz Hmargin. cbv zeta.
  unfold open_market_order. rewrite Hbid, Hask.
  apply Qeq_bool_false_iff in Hbz. apply Qeq_bool_false_iff in Haz.
  rewrite Hbz, Haz. cbn [orb].
  assert (Hgo : (if negb is_reduce
                 then can_open_position
                        size (if order_side_eqb side BUY then ask else bid)
                        (mark_price_or md ((bid + ask) / 2)) s
                 else Ok true) = Ok true).
  { destruct Hmargin as [-> | H]; [reflexivity |].
    destruct is_reduce; [reflexivity | exact H]. }
  rewrite Hgo. cbn [run_alone].
  destruct (simulate_market_order_fill
              side size bid ask (buy_orders_list md) (sell_orders_list md))
    as [fill_price fill_size].
  cbn [fst snd]. unfold bind at 1. unfold modify at 1.
  destruct (_process_fill _ _ _ _ _ _ _) as [[[] | e] s']; reflexivity.
Qed.

(** Closing one position with its reduce-only market order, when the best
    opposing level covers it. *)
Lemma close_one (fill_delay_ms : Z) (ent : entropy) (s : PortfolioTracker)
      (md : MarketData) (k : GenericPositionSide) (p : DataPosition) :
  ledger_wf s -> quoted md ->
  get_position k s = Some p ->
  best_level_covers
    (pos_size p)
    (opposing_book (if position_side_eqb k LONG then SELL else BUY) md) ->
  exists fill s',
    run_alone
      (open_market_order
         fill_delay_ms ent (if position_side_eqb k LONG then SELL else BUY)
         (pos_size p) true s md) md
    = (Ok (Some fill), s')
    /\ open_positions s' = dict_del position_side_eqb k (open_positions s)
    /\ open_orders s' = open_orders s
    /\ total_trades s' = (total_trades s + 1)%Z
    /\ ledger_wf s'.
Proof.
  intros Hwf [(bid & Hbid & Hbz) (ask & Hask & Haz)] Hp Hcover.
  set (side := if position_side_eqb k LONG then SELL else BUY) in *.
  assert (Hopp : opposite_side_of side = k) by (subst side; destruct k; reflexivity).
  assert (Hsize : 0 < pos_size p) by (destruct Hwf as [_ Hpos]; eauto).
  rewrite (market_order_runs fill_delay_ms ent side (pos_size p) bid ask true s md
                             Hbid Hbz Hask Haz (or_introl eq_refl)).
  pose proof (Exchange.simulate_filled
                side (pos_size p) bid ask md Hsize Hcover) as Hfilled.
  destruct (simulate_market_order_fill
              side (pos_size p) bid ask (buy_orders_list md) (sell_orders_list md))
    as [fill_price fill_size].
  cbn [fst snd] in *.
  set (fee := calculate_fee fill_price fill_size false).
  assert (Hwf1 : ledger_wf (apply_fee fee s))
    by (apply Invariant.apply_fee_preserves_wf, Hwf).
  pose proof (Invariant.process_fill_preserves_wf
                (now_close ent) (now_open ent) side fill_price fill_size false
                (apply_fee fee s) Hwf1) as Hwf'.
  destruct (Exchange.process_fill_full_close
              (now_close ent) (now_open ent) side fill_price fill_size false
              (apply_fee fee s) p)
    as (s' & Hrun & Hpos' & Hord' & Htr');
    [apply Hwf1 | rewrite Hopp; exact Hp | exact Hfilled |].
  rewrite Hrun in Hwf' |- *. cbn [snd] in Hwf'.
  eexists; exists s'. split; [reflexivity |].
  rewrite Hopp in Hpos'.
  split; [exact Hpos' |]. split; [exact Hord' |]. split; [exact Htr' | exact Hwf'].
Qed.

Lemma close_positions_flattens (fill_delay_ms : Z) (ent : nat -> entropy)
      (md : MarketData) :
  quoted md ->
  forall (l : list (GenericPositionSide * DataPosition)) (i : nat)
         (s : PortfolioTracker),
    open_positions s = l ->
    ledger_wf s ->
    NoDup (map fst l) ->
    (forall k p, In (k, p) l -> pos_side p = k) ->
    (forall k p, In (k, p) l ->
                 best_level_covers (pos_size p) (opposing_book (closing_side p) md)) ->
    exists s',
      run_alone (close_positions fill_delay_ms ent i (map snd l) s md) md
      = (Ok tt, s')
      /\ open_positions s' = []
      /\ open_orders s' = open_orders s
      /\ total_trades s' = (total_trades s + Z.of_nat (List.length l))%Z
      /\ ledger_wf s'.
Proof.
  intros Hq l. induction l as [| [k p] rest IH]; intros i s Hl Hwf Hnd Hkey Hcov.
  - exists s. simpl. repeat split; try assumption; try apply Hwf. lia.
  - cbn [map snd close_positions].
    pose proof (Hcov k p (or_introl eq_refl)) as Hcover.
    unfold closing_side in Hcover.
    rewrite (Hkey k p (or_introl eq_refl)) in Hcover |- *.
    rewrite Exchange.run_alone_bind.
    assert (Hp : get_position k s = Some p).
    { unfold get_position. rewrite Hl. simpl.
      assert (E : position_side_eqb k k = true)
        by (now apply position_side_eqb_spec).
      now rewrite E. }
    assert (Hcover' :
              best_level_covers
                (pos_size p)
                (opposing_book (if position_side_eqb k LONG then SELL else BUY) md))
      by (destruct k; exact Hcover).
    destruct (close_one fill_delay_ms (ent i) s md k p Hwf Hq Hp Hcover')
      as (fill & s1 & Hrun & Hpos1 & Hord1 & Htr1 & Hwf1).
    rewrite Hrun.
    inversion Hnd as [| ? ? Hnotin Hnd']; subst.
    rewrite Hl, (Exchange.dict_del_head k p rest Hnotin) in Hpos1.
    destruct (IH (S i) s1 Hpos1 Hwf1 Hnd')
      as (s' & Hrun' & Hflat & Hord' & Htr' & Hwf').
    { intros k' p' Hin. apply Hkey. now right. }
    { intros k' p' Hin. apply (Hcov k' p'). now right. }
    exists s'. split; [exact Hrun' |]. split; [exact Hflat |].
    split; [rewrite Hord'; exact Hord1 |].
    split; [| exact Hwf'].
    rewrite Htr', Htr1. simpl List.length. lia.
Qed.

Lemma close_positions_unquoted (fill_delay_ms : Z) (ent : nat -> entropy)
      (md : MarketData) :
  (buy_orders_list md = []
   \/ sell_orders_list md = []
   \/ (exists bid, first_price (buy_orders_list md) = Some bid /\ bid == 0)
   \/ (exists ask, first_price (sell_orders_list md) = Some ask /\ ask == 0)) ->
  forall (positions : list DataPosition) (i : nat) (s : PortfolioTracker),
    close_positions fill_delay_ms ent i positions s md = Done (Ok tt) s.
Proof.
  intros Hno positions.
  induction positions as [| p rest IH]; intros i s; [reflexivity |].
  cbn [close_positions].
  rewrite (market_order_rejected _ _ _ _ _ _ _ Hno). simpl. apply IH.
Qed.

End Closing.

(** X20.  A market order that passes the margin check (or is reduce-only),
    run undisturbed on a quoted book from a ledger in good standing,
    returns a fill that carries the price and the size reported by
    [simulate_market_order_fill] and the taker fee on them,
    [price * size * 0.0005], which is what the fee total grows by; resting
    orders are untouched and the ledger stays in good standing.  When the
    best opposing level alone covers a positive size, the fill is for that
    size.  On a flat ledger a fill of positive reported size opens the
    own-side position with that size at the fill price, records no trade,
    and the balance falls by the fee alone. *)
Theorem market_order_undisturbed
        (fill_delay_ms : Z) (ent : entropy) (side : GenericOrderSide)
        (size bid ask : Q) (is_reduce : bool)
        (s : PortfolioTracker) (md : MarketData) :
  ledger_wf s ->
  first_price (buy_orders_list md) = Some bid -> ~ bid == 0 ->
  first_price (sell_orders_list md) = Some ask -> ~ ask == 0 ->
  (is_reduce = true
   \/ Portfolio.can_open_position
        size (if order_side_eqb side BUY then ask else bid)
        (PaperTradingExchange.mark_price_or md ((bid + ask) / 2)) s = Ok true) ->
  let simulated :=
    OrderSimulator.simulate_market_order_fill
      side size bid ask (buy_orders_list md) (sell_orders_list md) in
  exists fill s',
    run_alone (PaperTradingExchange.open_market_order
                 fill_delay_ms ent side size is_reduce s md) md
    = (Ok (Some fill), s')
    /\ fd_side fill = side
    /\ fd_price fill = fst simulated
    /\ fd_size fill = snd simulated
    /\ fd_fee fill == fd_price fill * fd_size fill * 0.0005
    /\ total_fees_paid s' = total_fees_paid s + fd_fee fill
    /\ open_orders s' = open_orders s
    /\ ledger_wf s'
    /\ (0 < size -> best_level_covers size (opposing_book side md) ->
        fd_size fill == size)
    /\ (open_positions s = [] -> 0 < fd_size fill ->
        Portfolio.get_position (PaperTradingExchange.position_side_of side) s'
        = Some (mkPosition (PaperTradingExchange.position_side_of side)
                           (fd_size fill) (fd_price fill) (now_open ent))
        /\ Portfolio.get_position (PaperTradingExchange.opposite_side_of side) s'
           = None
        /\ balance s' = balance s - fd_fee fill
        /\ total_trades s' = total_trades s).
Proof.
  intros Hwf Hbid Hbz Hask Haz Hmargin simulated.
  rewrite (Closing.market_order_runs
             fill_delay_ms ent side size bid ask is_reduce s md
             Hbid Hbz Hask Haz Hmargin).
  pose proof (Exchange.simulate_filled side size bid ask md) as Hfilled.
  fold simulated in Hfilled |- *.
  destruct simulated as [fill_price fill_size].
  cbn [fst snd] in *.
  set (fee := OrderSimulator.calculate_fee fill_price fill_size false).
  set (s1 := Portfolio.apply_fee fee s).
  assert (Hwf1 : ledger_wf s1) by (apply Invariant.apply_fee_preserves_wf, Hwf).
  pose proof (Exchange.process_fill_returns
                (now_close ent) (now_open ent) side fill_price fill_size false
                s1 Hwf1) as Hok.
  pose proof (Invariant.process_fill_preserves_wf
                (now_close ent) (now_open ent) side fill_price fill_size false
                s1 Hwf1) as Hwf'.
  pose proof (Latency.process_fill_keeps_fees
                (now_close ent) (now_open ent) side fill_price fill_size false s1)
    as [Hfees Hord].
  cbv zeta in Hfees, Hord.
  assert (Hflat :
            open_positions s = [] -> 0 < fill_size ->
            PaperTradingExchange._process_fill
              (now_close ent) (now_open ent) side fill_price fill_size false s1
            = (Ok tt,
               Portfolio.update_position
                 (now_open ent) (PaperTradingExchange.position_side_of side)
                 fill_size fill_price 0 s1)).
  { intros Hempty Hpositive. rewrite Fill.process_fill_unfold. cbv zeta.
    unfold Portfolio.get_position. subst s1. cbn [open_positions Portfolio.apply_fee
      set_total_fees_paid set_balance]. rewrite Hempty. cbn [dict_get].
    unfold open_step.
    assert (Hpos : Qlt_bool 0 fill_size = true)
      by (apply Qlt_bool_iff; exact Hpositive).
    now rewrite Hpos. }
  destruct (PaperTradingExchange._process_fill
              (now_close ent) (now_open ent) side fill_price fill_size false s1)
    as [r s'] eqn:Hrun.
  cbn [fst snd] in *. subst r.
  eexists; exists s'. split; [reflexivity |]. cbn [fd_side fd_size fd_price fd_fee].
  split; [reflexivity |]. split; [reflexivity |]. split; [reflexivity |].
  split; [subst fee; unfold OrderSimulator.calculate_fee; reflexivity |].
  split; [rewrite Hfees; reflexivity |].
  split; [rewrite Hord; reflexivity |].
  split; [exact Hwf' |].
  split; [exact Hfilled |].
  intros Hempty Hpositive. specialize (Hflat Hempty Hpositive). injection Hflat as ->.
  assert (Hnz : Qeq_bool fill_size 0 = false)
    by (apply Qeq_bool_false_iff; lra).
  split; [rewrite Fill.get_position_update_same, Hnz; reflexivity |].
  split.
  - rewrite Fill.get_position_update_other by apply opposite_is_not_own.
    unfold Portfolio.get_position. subst s1. simpl. now rewrite Hempty.
  - split; [rewrite Fill.update_position_no_pnl; reflexivity |].
    pose proof (Fill.update_position_frame
                  (now_open ent) (PaperTradingExchange.position_side_of side)
                  fill_size fill_price 0 s1) as (_ & _ & Ht & _).
    cbv zeta in Ht. rewrite Ht. reflexivity.
Qed.

Lemma market_order_undisturbed_witness :
  exists fill s',
    run_alone (PaperTradingExchange.open_market_order
                 100%Z (no_jitter 0%nat) BUY 5 false
                 (Portfolio.init 1000 5) sample_market) sample_market
    = (Ok (Some fill), s')
    /\ fd_size fill == 5
    /\ Portfolio.get_position LONG s'
       = Some (mkPosition LONG (fd_size fill) (fd_price fill) 0%Z).
Proof.
  pose proof (market_order_undisturbed
                100%Z (no_jitter 0%nat) BUY 5 98 99 false
                (Portfolio.init 1000 5) sample_market) as H.
  cbv zeta in H.
  destruct H as (fill & s' & Hrun & _ & _ & Hsz & _ & _ & _ & _ & Hwhole & Hflat).
  - split; [by_computation |]. intros [|] p Hp; discriminate.
  - reflexivity.
  - by_computation.
  - reflexivity.
  - by_computation.
  - right. reflexivity.
  - exists fill, s'. split; [exact Hrun |].
    assert (Hfive : fd_size fill == 5).
    { apply Hwhole; by_computation. }
    split; [exact Hfive |].
    apply (Hflat eq_refl). rewrite Hfive. by_computation.
Defined.

(** X21.  Run undisturbed on a quoted book whose best opposing level covers
    each open position, from a ledger in good standing whose positions are
    filed under their own side, [close_all_positions] returns normally and
    leaves no open position, having recorded one trade per position closed
    and left the resting orders alone; [critical_close_all] in addition
    leaves no resting order. *)
Theorem close_all_positions_flattens
        (fill_delay_ms : Z) (ent : nat -> entropy)
        (s : PortfolioTracker) (md : MarketData) :
  ledger_wf s -> positions_keyed s -> quoted md ->
  (forall k p, In (k, p) (open_positions s) ->
               best_level_covers (pos_size p) (opposing_book (closing_side p) md)) ->
  (exists s',
      run_alone (PaperTradingExchange.close_all_positions
                   fill_delay_ms ent s md) md = (Ok tt, s')
      /\ open_positions s' = []
      /\ open_orders s' = open_orders s
      /\ total_trades s'
         = (total_trades s + Z.of_nat (List.length (open_positions s)))%Z)
  /\ (exists s',
         run_alone (PaperTradingExchange.critical_close_all
                      fill_delay_ms ent s md) md = (Ok tt, s')
         /\ open_positions s' = []
         /\ open_orders s' = []).
Proof.
  intros Hwf [Hnd Hkey] Hq Hcov. split.
  - destruct (Closing.close_positions_flattens
                fill_delay_ms ent md Hq (open_positions s) 0%nat s
                eq_refl Hwf Hnd Hkey Hcov)
      as (s' & Hrun & Hflat & Hord & Htr & _).
    exists s'. split; [exact Hrun |]. split; [exact Hflat |].
    split; [exact Hord | exact Htr].
  - destruct (Closing.close_positions_flattens
                fill_delay_ms ent md Hq (open_positions s) 0%nat
                (PaperTradingExchange.cancel_all_orders s)
                eq_refl (Invariant.set_open_orders_preserves_wf [] s Hwf)
                Hnd Hkey Hcov)
      as (s' & Hrun & Hflat & Hord & _).
    exists s'. split; [exact Hrun |]. split; [exact Hflat | exact Hord].
Qed.

Lemma close_all_positions_flattens_witness :
  exists s',
    run_alone (PaperTradingExchange.critical_close_all
                 100%Z no_jitter sample_short_ledger sample_market) sample_market
    = (Ok tt, s')
    /\ open_positions s' = []
    /\ open_orders s' = [].
Proof.
  apply (close_all_positions_flattens
           100%Z no_jitter sample_short_ledger sample_market).
  - split; [by_computation |].
    intros [|] p Hp; vm_compute in Hp; [discriminate |].
    injection Hp as <-. by_computation.
  - split.
    + repeat constructor. intros [].
    + intros k p [Hin | []]. injection Hin as <- <-. reflexivity.
  - split; eexists; (split; [reflexivity | by_computation]).
  - intros k p [Hin | []]. injection Hin as <- <-. by_computation.
Defined.

(** X22.  Without quotes (a side of the book empty, or a best price of
    zero) [close_all_positions] closes nothing: every one of its market
    orders is rejected, it ends at once without an exception and without a
    sleep, and the ledger, open positions included, is exactly as before;
    [critical_close_all] then only cancels the resting orders. *)
Theorem close_all_positions_needs_quotes
        (fill_delay_ms : Z) (ent : nat -> entropy)
        (s : PortfolioTracker) (md : MarketData) :
  (buy_orders_list md = []
   \/ sell_orders_list md = []
   \/ (exists bid, first_price (buy_orders_list md) = Some bid /\ bid == 0)
   \/ (exists ask, first_price (sell_orders_list md) = Some ask /\ ask == 0)) ->
  PaperTradingExchange.close_all_positions fill_delay_ms ent s md = Done (Ok tt) s
  /\ PaperTradingExchange.critical_close_all fill_delay_ms ent s md
     = Done (Ok tt) (PaperTradingExchange.cancel_all_orders s)
  /\ open_positions (PaperTradingExchange.cancel_all_orders s) = open_positions s.
Proof.
  intro Hno.
  unfold PaperTradingExchange.critical_close_all,
    PaperTradingExchange.close_all_positions.
  rewrite !(Closing.close_positions_unquoted _ _ _ Hno).
  repeat split.
Qed.

Lemma close_all_positions_needs_quotes_witness :
  PaperTradingExchange.close_all_positions
    100%Z no_jitter sample_short_ledger (mkMarket [] [(99, 15)] None)
  = Done (Ok tt) sample_short_ledger
  /\ open_positions sample_short_ledger <> [].
Proof.
  split; [| discriminate].
  apply (close_all_positions_needs_quotes
           100%Z no_jitter sample_short_ledger (mkMarket [] [(99, 15)] None)).
  left. reflexivity.
Defined.

Module Monitoring.
Import OrderSimulator Portfolio PaperTradingExchange.




End Monitoring.



(** X24.  The monitoring loop does not check that an order is still resting
    when its turn to be filled comes: a fill decided at the start of the
    turn for an order that has left the resting set in the meantime
    (cancelled or filled while an earlier fill was asleep) is still charged
    its fee before the sleep, with the resting orders and everything else
    left as they are, and its position update still runs on resumption. *)
Theorem monitoring_fills_an_order_no_longer_resting
        (fill_delay_ms : Z) (ent : nat -> entropy) (i : nat) (order : DataOrder)
        (fill_price fill_size : Q) (is_maker : bool)
        (rest : list (DataOrder * (Q * Q * bool))) (s : PortfolioTracker) :
  Portfolio.get_order (order_id order) s = None ->
  let fee := OrderSimulator.calculate_fee fill_price fill_size is_maker in
  exists k,
    PaperTradingExchange.process_fills
      fill_delay_ms ent i ((order, (fill_price, fill_size, is_maker)) :: rest) s
    = Sleep (PaperTradingExchange.fill_delay_seconds fill_delay_ms (ent i))
            (Portfolio.apply_fee fee s) k
    /\ forall s' md',
        k s' md'
        = match PaperTradingExchange._process_fill
                  (now_close (ent i)) (now_open (ent i)) (order_side order)
                  fill_price fill_size is_maker s' with
          | (Ok _, s'') =>
              PaperTradingExchange.process_fills fill_delay_ms ent (S i) rest s''
          | (Raise e, s'') => Done (Raise e) s''
          end.
Proof.
  intros Habsent fee. subst fee.
  cbn [PaperTradingExchange.process_fills].
  assert (Hsame : snd (Portfolio.remove_order (order_id order) s) = s).
  { unfold Portfolio.remove_order, dict_pop. cbn [snd].
    unfold Portfolio.get_order in Habsent.
    rewrite (dict_del_absent _ _ _ Habsent).
    apply Orders.set_open_orders_same. }
  rewrite Hsame.
  eexists; split; [reflexivity |].
  intros s' md'. reflexivity.
Qed.

Lemma monitoring_fills_an_order_no_longer_resting_witness :
  exists k,
    PaperTradingExchange.process_fills
      100%Z no_jitter 0%nat [(sample_order, (99, 10, false))]
      (Portfolio.init 1000 5)
    = Sleep (PaperTradingExchange.fill_delay_seconds 100 (no_jitter 0%nat))
            (Portfolio.apply_fee
               (OrderSimulator.calculate_fee 99 10 false) (Portfolio.init 1000 5))
            k.
Proof.
  pose proof (monitoring_fills_an_order_no_longer_resting
                100%Z no_jitter 0%nat sample_order 99 10 false []
                (Portfolio.init 1000 5) eq_refl) as H.
  cbv zeta in H. destruct H as (k & Hk & _). exists k. exact Hk.
Defined.

(** X26.  Every outcome of [open_limit_order].  When it returns an order
    record, the id is ["paper_"] followed by the drawn hexadecimal string,
    [get_order] finds under it an order with the requested side, size and
    price, every other resting order is found as before, and nothing but
    the resting orders has changed.  When it returns [None] or raises, the
    ledger is untouched; both only happen to an order that is not
    reduce-only, and it raises only at leverage zero.  A reduce-only order
    is therefore always placed. *)
Theorem open_limit_order_outcomes
        (now : timestamp) (uuid_hex16 : string) (md : MarketData)
        (side : GenericOrderSide) (size price : Q) (is_reduce : bool)
        (s : PortfolioTracker) :
  let result := PaperTradingExchange.open_limit_order
                  now uuid_hex16 md side size price is_reduce s in
  let id := ("paper_" ++ uuid_hex16)%string in
  match fst result with
  | Ok (Some record) =>
      record = mkOrderDict id side size price
      /\ Portfolio.get_order id (snd result) = Some (mkOrder id side size price now)
      /\ (forall id', id' <> id ->
                      Portfolio.get_order id' (snd result)
                      = Portfolio.get_order id' s)
      /\ same_but_orders s (snd result)
  | Ok None => snd result = s /\ is_reduce = false
  | Raise _ => snd result = s /\ is_reduce = false /\ max_leverage s = 0%Z
  end
  /\ (is_reduce = true -> exists record, fst result = Ok (Some record)).
Proof.
  cbv zeta. unfold PaperTradingExchange.open_limit_order.
  assert (Hplaced :
            let id := ("paper_" ++ uuid_hex16)%string in
            let s' := Portfolio.add_order (mkOrder id side size price now) s in
            Portfolio.get_order id s' = Some (mkOrder id side size price now)
            /\ (forall id', id' <> id ->
                            Portfolio.get_order id' s' = Portfolio.get_order id' s)
            /\ same_but_orders s s').
  { cbv zeta. unfold Portfolio.get_order, Portfolio.add_order. simpl.
    split; [apply (dict_get_set_same _ String.eqb_eq) |].
    split; [intros id' N; apply (dict_get_set_other _ String.eqb_eq), N |].
    apply Orders.same_but_orders_set. }
  cbv zeta in Hplaced.
  destruct is_reduce; simpl.
  - split; [| intros _; eexists; reflexivity].
    split; [reflexivity | exact Hplaced].
  - split; [| discriminate].
    destruct (Portfolio.can_open_position
                size price (PaperTradingExchange.mark_price_or md price) s)
      as [[|] | e] eqn:Hmargin; simpl.
    + split; [reflexivity | exact Hplaced].
    + split; reflexivity.
    + split; [reflexivity |]. split; [reflexivity |].
      unfold Portfolio.can_open_position, pydiv in Hmargin.
      destruct (Qeq_bool (inject_Z (max_leverage s)) 0) eqn:Hz;
        [| discriminate].
      apply Qeq_bool_iff in Hz. unfold Qeq in Hz. simpl in Hz. lia.
Qed.

Lemma open_limit_order_outcomes_witness :
  exists record,
    fst (PaperTradingExchange.open_limit_order
           7%Z "0123456789abcdef" sample_market BUY 100 100 true sample_ledger)
    = Ok (Some record).
Proof.
  pose proof (open_limit_order_outcomes
                7%Z "0123456789abcdef" sample_market BUY 100 100 true
                sample_ledger) as H.
  cbv zeta in H. destruct H as [_ Hreduce]. apply Hreduce. reflexivity.
Defined.
